(** * yewtube terminal front-end (tui_app.py): embedding and properties

    The module [tui_app] keeps one process-wide [AppState], mutated by the
    key handlers of the dispatcher, by the search accept handler and by the
    playback thread.  The embedding below follows the source function by
    function: Python values become Rocq data, the global [state] and the
    prompt_toolkit shell become a [World] record threaded through a small
    state-and-exception monad, and the three external collaborators
    ([pafy.channel_search], [pafy.all_videos_from_channel] and the player)
    are parameters of the handlers that use them. *)

From Stdlib Require Import ZArith List String Ascii Bool Lia DecimalString.
Import ListNotations.

Local Open Scope string_scope.
Local Open Scope Z_scope.

(** ** Python values used by the program *)

Module Py.

(** A [str] is embedded as a [string] whose characters are the code points
    below 256; integers are unbounded, as in Python. *)

(** What a call yields: a value, or an exception caught by
    [except Exception], carried as the text [str(e)] that the handlers
    interpolate into their messages. *)
Inductive outcome (A : Type) : Type :=
| Returns (a : A)
| Raises (msg : string).
Arguments Returns {A} a.
Arguments Raises {A} msg.

Definition obind {A B} (o : outcome A) (f : A -> outcome B) : outcome B :=
  match o with
  | Returns a => f a
  | Raises e => Raises e
  end.

(** Evaluation of [[f(x) for x in l]], left to right, stopping at the
    first exception. *)
Fixpoint omap {A B} (f : A -> outcome B) (l : list A) : outcome (list B) :=
  match l with
  | [] => Returns []
  | x :: r =>
      obind (f x) (fun y => obind (omap f r) (fun ys => Returns (y :: ys)))
  end.

Definition code (c : ascii) : N := N_of_ascii c.

(** The characters '0' .. '9'. *)
Definition is_decimal (c : ascii) : bool :=
  ((48 <=? code c) && (code c <=? 57))%N.

(** [c.isdigit()]: Numeric_Type Decimal or Digit.  Below 256 these are
    '0' .. '9' and the superscripts U+00B2, U+00B3 and U+00B9. *)
Definition isdigit_char (c : ascii) : bool :=
  is_decimal c
  || (code c =? 178)%N || (code c =? 179)%N || (code c =? 185)%N.

Fixpoint all_chars (p : ascii -> bool) (s : string) : bool :=
  match s with
  | EmptyString => true
  | String c r => p c && all_chars p r
  end.

Definition nonempty (s : string) : bool :=
  match s with
  | EmptyString => false
  | String _ _ => true
  end.

(** [s.isdigit()]: at least one character, and all of them digits. *)
Definition isdigit (s : string) : bool :=
  nonempty s && all_chars isdigit_char s.

(** The strings [int] reads in base 10 among those that pass [isdigit]. *)
Definition isdecimal (s : string) : bool :=
  nonempty s && all_chars is_decimal s.

Definition digit_value (c : ascii) : Z := Z.of_N (code c) - 48.

Fixpoint decimal_value (acc : Z) (s : string) : Z :=
  match s with
  | EmptyString => acc
  | String c r => decimal_value (10 * acc + digit_value c) r
  end.

(** [int(x)] for a string [x] with [x.isdigit()], the only strings the
    program converts: the base-10 value when every character is one of
    '0' .. '9' (leading zeros allowed), and otherwise
    [ValueError("invalid literal for int() with base 10: 'x'")].  The
    interpreter's cap on the number of digits ([sys.set_int_max_str_digits])
    is not part of the embedding. *)
Definition int (x : string) : outcome Z :=
  if isdecimal x then Returns (decimal_value 0 x)
  else Raises ("invalid literal for int() with base 10: '" ++ x ++ "'").

(** [s.split(sep)] with a one-character separator: every occurrence
    splits, empty pieces are kept, and the empty string gives ['']. *)
Fixpoint split (sep : ascii) (s : string) : list string :=
  match s with
  | EmptyString => [EmptyString]
  | String c r =>
      if Ascii.eqb c sep then EmptyString :: split sep r
      else match split sep r with
           | h :: t => String c h :: t
           | [] => [String c EmptyString]
           end
  end.

(** [c.isspace()] below 256. *)
Definition isspace (c : ascii) : bool :=
  ((9 <=? code c) && (code c <=? 13)
   || (28 <=? code c) && (code c <=? 32)
   || (code c =? 133) || (code c =? 160))%N.

Fixpoint lstrip (s : string) : string :=
  match s with
  | EmptyString => EmptyString
  | String c r => if isspace c then lstrip r else s
  end.

Fixpoint rstrip (s : string) : string :=
  match s with
  | EmptyString => EmptyString
  | String c r =>
      match rstrip r with
      | EmptyString => if isspace c then EmptyString else String c EmptyString
      | r' => String c r'
      end
  end.

(** [s.strip()] *)
Definition strip (s : string) : string := rstrip (lstrip s).

(** Truth value of [x] for [x] a [str] or [None], as returned by
    [dict.get]: [None] and [''] are false. *)
Definition truthy (x : option string) : bool :=
  match x with
  | Some s => nonempty s
  | None => false
  end.

(** [l[i]]: a negative index counts from the end; [None] stands for the
    IndexError raised out of range. *)
Definition getitem {A} (l : list A) (i : Z) : option A :=
  let n := Z.of_nat (List.length l) in
  if (0 <=? i) && (i <? n) then nth_error l (Z.to_nat i)
  else if (- n <=? i) && (i <? 0) then nth_error l (Z.to_nat (n + i))
  else None.

(** [str(n)] for a length [n]. *)
Definition str_of_nat (n : nat) : string :=
  NilZero.string_of_uint (Nat.to_uint n).

End Py.

Import Py.

(** ** Duration parser *)

(** [_fmt_duration_to_seconds(dur)] *)
Definition _fmt_duration_to_seconds (dur : option string) : outcome Z :=
  if negb (truthy dur) then Returns 0
  else
    match dur with
    | None => Returns 0
    | Some d =>
        obind (omap int (filter isdigit (split ":" d)))
          (fun parts =>
             match parts with
             | [h; m; s] => Returns (h * 3600 + m * 60 + s)
             | [m; s] => Returns (m * 60 + s)
             | _ => Returns 0
             end)
    end.

(** ** Data model *)

Module ChannelItem.
Record t : Type := make {
  id : option string;       (* r.get('id'): None when the key is absent *)
  title : option string;    (* r.get('title') *)
  description : string
}.
End ChannelItem.

Module VideoItem.
Record t : Type := make {
  id : string;
  title : string;
  length_seconds : Z
}.
End VideoItem.

Record AppState : Type := mkAppState {
  query : string;
  channels : list ChannelItem.t;
  selected_channel : Z;
  videos : list VideoItem.t;
  selected_video : Z;
  now_playing : option (string * Z);
  status_text : string;
  focused_pane : string       (* 'left' or 'right' *)
}.

(** [AppState()] *)
Definition AppState_default : AppState :=
  mkAppState "" [] 0 [] 0 None "" "left".

Definition set_channels (x : list ChannelItem.t) (s : AppState) : AppState :=
  mkAppState (query s) x (selected_channel s) (videos s) (selected_video s)
    (now_playing s) (status_text s) (focused_pane s).

Definition set_selected_channel (x : Z) (s : AppState) : AppState :=
  mkAppState (query s) (channels s) x (videos s) (selected_video s)
    (now_playing s) (status_text s) (focused_pane s).

Definition set_videos (x : list VideoItem.t) (s : AppState) : AppState :=
  mkAppState (query s) (channels s) (selected_channel s) x (selected_video s)
    (now_playing s) (status_text s) (focused_pane s).

Definition set_selected_video (x : Z) (s : AppState) : AppState :=
  mkAppState (query s) (channels s) (selected_channel s) (videos s) x
    (now_playing s) (status_text s) (focused_pane s).

Definition set_now_playing (x : option (string * Z)) (s : AppState) : AppState :=
  mkAppState (query s) (channels s) (selected_channel s) (videos s)
    (selected_video s) x (status_text s) (focused_pane s).

Definition set_status_text (x : string) (s : AppState) : AppState :=
  mkAppState (query s) (channels s) (selected_channel s) (videos s)
    (selected_video s) (now_playing s) x (focused_pane s).

Definition set_focused_pane (x : string) (s : AppState) : AppState :=
  mkAppState (query s) (channels s) (selected_channel s) (videos s)
    (selected_video s) (now_playing s) (status_text s) x.

(** ** Records exchanged with the collaborators *)

(** One fragment of a [descriptionSnippet]: a dict read with [['text']];
    [None] stands for a dict without that key. *)
Module Fragment.
Record t : Type := make { text : option string }.
End Fragment.

(** A record returned by [pafy.channel_search], read with [r.get(key)]. *)
Module SearchResult.
Record t : Type := make {
  type : option string;
  id : option string;
  title : option string;
  descriptionSnippet : option (list Fragment.t)
}.
End SearchResult.

(** A record returned by [pafy.all_videos_from_channel], read with
    [v.get(key)]. *)
Module VideoEntry.
Record t : Type := make {
  id : option string;
  link : option string;
  title : option string;
  duration : option string
}.
End VideoEntry.

(** The two collaborators called on the UI path.  A failure is an exception
    of class [Exception] with its text. *)
Record Collaborators : Type := mkCollaborators {
  channel_search : string -> outcome (list SearchResult.t);
  all_videos_from_channel : option string -> outcome (list VideoEntry.t)
}.

(** How the [try] body of [_run] ends in the playback thread: the player
    returns, a KeyboardInterrupt is raised, or an exception of class
    [Exception] is raised (by the player or while it is set up). *)
Inductive play_outcome : Type :=
| PlayReturns
| PlayKeyboardInterrupt
| PlayRaises (msg : string).

Inductive Call : Type :=
| CallChannelSearch (text : string)
| CallAllVideos (channel_id : option string)
| CallPlay (v : VideoItem.t).

(** ** The shell around the state *)

(** The window that has the focus in [app.layout]. *)
Inductive Window : Type :=
| search_input
| channels_window
| videos_window.

(** A playback thread started by [_play_selected]: the video captured by
    the closure [_run], and whether [_run] has reached the player call. *)
Record Thread : Type := mkThread {
  th_vid : VideoItem.t;
  th_running : bool
}.

Record World : Type := mkWorld {
  state : AppState;
  current_window : Window;
  buffer_text : string;         (* search_input.buffer.text *)
  show_video : bool;            (* config.SHOW_VIDEO *)
  invalidations : nat;          (* calls of app.invalidate() *)
  calls : list Call;            (* collaborator calls, oldest first *)
  threads : list Thread;        (* started, not yet finished *)
  exited : bool                 (* app.exit() was called *)
}.

Definition with_state (x : AppState) (w : World) : World :=
  mkWorld x (current_window w) (buffer_text w) (show_video w)
    (invalidations w) (calls w) (threads w) (exited w).

Definition with_current_window (x : Window) (w : World) : World :=
  mkWorld (state w) x (buffer_text w) (show_video w)
    (invalidations w) (calls w) (threads w) (exited w).

Definition with_buffer_text (x : string) (w : World) : World :=
  mkWorld (state w) (current_window w) x (show_video w)
    (invalidations w) (calls w) (threads w) (exited w).

Definition with_show_video (x : bool) (w : World) : World :=
  mkWorld (state w) (current_window w) (buffer_text w) x
    (invalidations w) (calls w) (threads w) (exited w).

Definition with_invalidations (x : nat) (w : World) : World :=
  mkWorld (state w) (current_window w) (buffer_text w) (show_video w)
    x (calls w) (threads w) (exited w).

Definition with_calls (x : list Call) (w : World) : World :=
  mkWorld (state w) (current_window w) (buffer_text w) (show_video w)
    (invalidations w) x (threads w) (exited w).

Definition with_threads (x : list Thread) (w : World) : World :=
  mkWorld (state w) (current_window w) (buffer_text w) (show_video w)
    (invalidations w) (calls w) x (exited w).

Definition with_exited (x : bool) (w : World) : World :=
  mkWorld (state w) (current_window w) (buffer_text w) (show_video w)
    (invalidations w) (calls w) (threads w) x.

(** The world set up by [run()]: a fresh state, an empty buffer and the
    focus on the search input. *)
Definition initial_world : World :=
  mkWorld AppState_default search_input "" false 0 [] [] false.

(** ** Statements: state passing with exceptions *)

(** A statement runs in a world and leaves a world, together with its value
    or the exception that escapes it.  What was assigned before the
    exception stays assigned. *)
Definition M (A : Type) : Type := World -> World * outcome A.

Definition ret {A} (a : A) : M A := fun w => (w, Returns a).

Definition raise {A} (e : string) : M A := fun w => (w, Raises e).

Definition bind {A B} (m : M A) (f : A -> M B) : M B :=
  fun w =>
    match m w with
    | (w', Returns a) => f a w'
    | (w', Raises e) => (w', Raises e)
    end.

Declare Scope stmt_scope.
Delimit Scope stmt_scope with stmt.
Notation "x <- m ;; k" := (bind m (fun x => k))
  (at level 61, m at next level, right associativity) : stmt_scope.
Notation "m ;; k" := (bind m (fun _ => k))
  (at level 61, right associativity) : stmt_scope.
Local Open Scope stmt_scope.

(** [try: body  except Exception as e: handler(e)] *)
Definition try_except {A} (body : M A) (handler : string -> M A) : M A :=
  fun w =>
    match body w with
    | (w', Returns a) => (w', Returns a)
    | (w', Raises e) => handler e w'
    end.

(** [try: body  finally: fin] *)
Definition try_finally {A} (body : M A) (fin : M unit) : M A :=
  fun w =>
    match body w with
    | (w', r) =>
        match fin w' with
        | (w'', Returns _) => (w'', r)
        | (w'', Raises e) => (w'', Raises e)
        end
    end.

Definition lift {A} (o : outcome A) : M A := fun w => (w, o).

(** Reading a field of the global [state] *)
Definition read {A} (f : AppState -> A) : M A :=
  fun w => (w, Returns (f (state w))).

(** [state.field = x] *)
Definition assign (f : AppState -> AppState) : M unit :=
  fun w => (with_state (f (state w)) w, Returns tt).

Definition update (f : World -> World) : M unit :=
  fun w => (f w, Returns tt).

(** [app.invalidate()] *)
Definition invalidate : M unit :=
  update (fun w => with_invalidations (S (invalidations w)) w).

Definition record_call (c : Call) : M unit :=
  update (fun w => with_calls (calls w ++ [c])%list w).

(** [has_focus(search_input)()] *)
Definition has_focus_search_input : M bool :=
  fun w =>
    (w, Returns match current_window w with
                | search_input => true
                | _ => false
                end).

(** [event.app.layout.focus(win)] *)
Definition focus (win : Window) : M unit := update (with_current_window win).

(** [l[i]] as a statement *)
Definition index {A} (l : list A) (i : Z) : M A :=
  match getitem l i with
  | Some a => ret a
  | None => raise "list index out of range"
  end.

Definition is_nil {A} (l : list A) : bool :=
  match l with
  | [] => true
  | _ :: _ => false
  end.

(** [x or y] on values that are a [str] or [None] *)
Definition por (x y : option string) : option string :=
  if truthy x then x else y.

(** ** Video-list reload *)

(** The [vid] of an entry: [v.get('id') or (v.get('link').split('=')[-1]
    if v.get('link') else None)] *)
Definition entry_vid (v : VideoEntry.t) : option string :=
  por (VideoEntry.id v)
      (if truthy (VideoEntry.link v)
       then option_map (fun l => last (split "=" l) "") (VideoEntry.link v)
       else None).

(** The body of [for v in vids], with the list [items] built so far. *)
Fixpoint video_items (vids : list VideoEntry.t) (items : list VideoItem.t)
  : outcome (list VideoItem.t) :=
  match vids with
  | [] => Returns items
  | v :: rest =>
      let vid := entry_vid v in
      let title := VideoEntry.title v in
      let dur_str := por (VideoEntry.duration v) (Some "") in
      obind (_fmt_duration_to_seconds dur_str) (fun dsec =>
        match vid, title with
        | Some i, Some t =>
            if truthy vid && truthy title
            then video_items rest (items ++ [VideoItem.make i t dsec])%list
            else video_items rest items
        | _, _ => video_items rest items
        end)
  end.

(** [_load_videos_for_selected()] *)
Definition _load_videos_for_selected (env : Collaborators) : M unit :=
  chs <- read channels;;
  if is_nil chs then assign (set_videos [])
  else
    sc <- read selected_channel;;
    ch <- index chs sc;;
    try_except
      (record_call (CallAllVideos (ChannelItem.id ch));;
       vids <- lift (all_videos_from_channel env (ChannelItem.id ch));;
       items <- lift (video_items vids []);;
       assign (set_videos items);;
       assign (set_selected_video 0))
      (fun e =>
         assign (set_status_text ("Failed to load videos: " ++ e));;
         assign (set_videos [])).

(** ** Search accept handler *)

Definition snippet_truthy (x : option (list Fragment.t)) : bool :=
  match x with
  | Some (_ :: _) => true
  | _ => false
  end.

(** The [description] argument:
    [(r.get('descriptionSnippet') or [{'text': ''}])[0]['text']
     if r.get('descriptionSnippet') else ''] *)
Definition result_description (r : SearchResult.t) : outcome string :=
  let snippet := SearchResult.descriptionSnippet r in
  if snippet_truthy snippet then
    let l := match snippet with
             | Some (f :: fs) => f :: fs
             | _ => [Fragment.make (Some "")]
             end in
    match getitem l 0 with
    | Some f =>
        match Fragment.text f with
        | Some t => Returns t
        | None => Raises "'text'"          (* str(KeyError('text')) *)
        end
    | None => Raises "list index out of range"
    end
  else Returns "".

(** The body of [for r in results], with the list [chans] built so far. *)
Fixpoint channel_items (results : list SearchResult.t)
  (chans : list ChannelItem.t) : outcome (list ChannelItem.t) :=
  match results with
  | [] => Returns chans
  | r :: rest =>
      if negb (match SearchResult.type r with
               | Some ty => String.eqb ty "channel"
               | None => false
               end)
      then channel_items rest chans
      else
        obind (result_description r) (fun d =>
          channel_items rest
            (chans ++ [ChannelItem.make (SearchResult.id r)
                         (SearchResult.title r) d])%list)
  end.

(** [_handle_search_accept(buf)], with [buf] the buffer of the search
    input *)
Definition _handle_search_accept (env : Collaborators) : M unit :=
  fun w0 =>
    let text := strip (buffer_text w0) in
    if negb (nonempty text) then ret tt w0
    else
      (assign (set_status_text "Searching...");;
       invalidate;;
       try_finally
         (try_except
            (record_call (CallChannelSearch text);;
             results <- lift (channel_search env text);;
             chans <- lift (channel_items results []);;
             assign (set_channels chans);;
             assign (set_selected_channel 0);;
             _load_videos_for_selected env;;
             assign (set_status_text
                       ("Found " ++ str_of_nat (List.length chans)
                                 ++ " channel(s).")))
            (fun e => assign (set_status_text ("Search failed: " ++ e))))
         (update (with_buffer_text "");;
          invalidate)) w0.

(** ** Playback *)

(** The closure [_run] up to the player call: the assignments before
    [try] and the call of [g.PLAYER_OBJ.play([yv], ...)]. *)
Definition _run_begin (vid : VideoItem.t) : M unit :=
  assign (set_now_playing
            (Some (VideoItem.title vid, VideoItem.length_seconds vid)));;
  assign (set_status_text "");;
  invalidate;;
  record_call (CallPlay vid).

(** The closure [_run] from the end of the player call: the [except]
    clauses and the [finally] clause. *)
Definition _run_end (o : play_outcome) : M unit :=
  try_finally
    match o with
    | PlayReturns => ret tt
    | PlayKeyboardInterrupt => ret tt                     (* pass *)
    | PlayRaises e => assign (set_status_text ("Playback error: " ++ e))
    end
    (assign (set_now_playing None);;
     invalidate).

(** [_play_selected(mode)]: the thread is started and the function
    returns; [_run] is run by the thread. *)
Definition _play_selected (mode : string) : M unit :=
  vs <- read videos;;
  if is_nil vs then ret tt
  else
    sv <- read selected_video;;
    vid <- index vs sv;;
    update (with_show_video (String.eqb mode "video"));;
    update (fun w => with_threads (threads w ++ [mkThread vid false])%list w).

(** ** Key bindings *)

(** [@kb.add('enter', filter=~has_focus(search_input))] *)
Definition on_enter : M unit :=
  pane <- read focused_pane;;
  vs <- read videos;;
  if String.eqb pane "right" && negb (is_nil vs)
  then _play_selected "audio"
  else ret tt.

(** [@kb.add('v')] *)
Definition on_v : M unit :=
  f <- has_focus_search_input;;
  pane <- read focused_pane;;
  vs <- read videos;;
  if negb f && String.eqb pane "right" && negb (is_nil vs)
  then _play_selected "video"
  else ret tt.

(** [@kb.add('tab')] *)
Definition on_tab : M unit :=
  f <- has_focus_search_input;;
  (if f then
     focus channels_window;;
     assign (set_focused_pane "left")
   else
     fun w =>
       match current_window w with
       | channels_window =>
           (focus videos_window;;
            assign (set_focused_pane "right")) w
       | _ => focus search_input w
       end);;
  invalidate.

(** [@kb.add('up')] *)
Definition on_up (env : Collaborators) : M unit :=
  f <- has_focus_search_input;;
  if f then ret tt
  else
    pane <- read focused_pane;;
    chs <- read channels;;
    vs <- read videos;;
    (if String.eqb pane "left" && negb (is_nil chs) then
       sc <- read selected_channel;;
       assign (set_selected_channel (Z.max 0 (sc - 1)));;
       _load_videos_for_selected env
     else if String.eqb pane "right" && negb (is_nil vs) then
       sv <- read selected_video;;
       assign (set_selected_video (Z.max 0 (sv - 1)))
     else ret tt);;
    invalidate.

(** [@kb.add('down')] *)
Definition on_down (env : Collaborators) : M unit :=
  f <- has_focus_search_input;;
  if f then ret tt
  else
    pane <- read focused_pane;;
    chs <- read channels;;
    vs <- read videos;;
    (if String.eqb pane "left" && negb (is_nil chs) then
       sc <- read selected_channel;;
       assign (set_selected_channel
                 (Z.min (Z.of_nat (List.length chs) - 1) (sc + 1)));;
       _load_videos_for_selected env
     else if String.eqb pane "right" && negb (is_nil vs) then
       sv <- read selected_video;;
       assign (set_selected_video
                 (Z.min (Z.of_nat (List.length vs) - 1) (sv + 1)))
     else ret tt);;
    invalidate.

(** [@kb.add('escape')], [@kb.add('c-c')] *)
Definition on_escape : M unit := update (with_exited true).

(** ** Dispatcher and threads *)

Inductive Key : Type := Enter | KeyV | Tab | Up | Down | Escape.

(** One key press.  Enter in the search input runs the accept handler of
    the text area; elsewhere it runs the binding filtered on
    [~has_focus(search_input)]. *)
Definition press (env : Collaborators) (k : Key) : M unit :=
  match k with
  | Enter =>
      f <- has_focus_search_input;;
      if f then _handle_search_accept env else on_enter
  | KeyV => on_v
  | Tab => on_tab
  | Up => on_up env
  | Down => on_down env
  | Escape => on_escape
  end.

Fixpoint remove_nth {A} (i : nat) (l : list A) : list A :=
  match i, l with
  | _, [] => []
  | O, _ :: r => r
  | S j, x :: r => x :: remove_nth j r
  end.

Fixpoint replace_nth {A} (i : nat) (x : A) (l : list A) : list A :=
  match i, l with
  | _, [] => []
  | O, _ :: r => x :: r
  | S j, y :: r => y :: replace_nth j x r
  end.

(** The [i]-th started thread enters [_run]. *)
Definition thread_begin (i : nat) : M unit :=
  fun w =>
    match nth_error (threads w) i with
    | Some (mkThread vid false) =>
        (_run_begin vid;;
         update (fun w' =>
                   with_threads
                     (replace_nth i (mkThread vid true) (threads w')) w')) w
    | _ => ret tt w
    end.

(** The player call of the [i]-th thread ends with [o]; the thread
    finishes. *)
Definition thread_end (i : nat) (o : play_outcome) : M unit :=
  fun w =>
    match nth_error (threads w) i with
    | Some (mkThread vid true) =>
        (_run_end o;;
         update (fun w' => with_threads (remove_nth i (threads w')) w')) w
    | _ => ret tt w
    end.

(** What happens next: a key is pressed (with the behaviour of the
    collaborators during its handler), the search line is edited, or a
    playback thread advances. *)
Inductive Event : Type :=
| KeyPress (k : Key) (env : Collaborators)
| Edit (text : string)
| ThreadBegin (i : nat)
| ThreadEnd (i : nat) (o : play_outcome).

Definition step (e : Event) : M unit :=
  match e with
  | KeyPress k env => press env k
  | Edit text =>
      f <- has_focus_search_input;;
      if f then update (with_buffer_text text) else ret tt
  | ThreadBegin i => thread_begin i
  | ThreadEnd i o => thread_end i o
  end.

Definition exec {A} (m : M A) (w : World) : World := fst (m w).

Fixpoint run_events (es : list Event) (w : World) : World :=
  match es with
  | [] => w
  | e :: r => run_events r (exec (step e) w)
  end.

Inductive reachable : World -> Prop :=
| reach_initial : reachable initial_world
| reach_step (e : Event) (w : World) :
    reachable w -> reachable (exec (step e) w).

(** ** Definitions used to state the properties *)

(** No character of [s] is the separator. *)
Definition free_of (sep : ascii) (s : string) : bool :=
  all_chars (fun c => negb (Ascii.eqb c sep)) s.

(** [sub] occurs in [s]. *)
Definition contains (sub s : string) : Prop :=
  exists p q, s = p ++ sub ++ q.

(** The code point U+00B2 (superscript two) *)
Definition superscript_two : ascii := "178"%char.

(** What the [try] block of the reload computes for the channel [ch]: the
    answer of the collaborator, passed through the loop. *)
Definition fetch_videos (env : Collaborators) (ch : ChannelItem.t)
  : outcome (list VideoItem.t) :=
  obind (all_videos_from_channel env (ChannelItem.id ch))
        (fun vids => video_items vids []).

(** The seconds read from the duration of an entry. *)
Definition entry_seconds (v : VideoEntry.t) : Z :=
  match _fmt_duration_to_seconds (por (VideoEntry.duration v) (Some "")) with
  | Returns d => d
  | Raises _ => 0
  end.

(** The listing an entry gives: one item when the derived id and the title
    are both present and not empty, none otherwise. *)
Definition listing (v : VideoEntry.t) : list VideoItem.t :=
  match entry_vid v, VideoEntry.title v with
  | Some i, Some t =>
      if nonempty i && nonempty t
      then [VideoItem.make i t (entry_seconds v)]
      else []
  | _, _ => []
  end.

(** The duration of an entry is one the parser returns on. *)
Definition duration_parses (v : VideoEntry.t) : Prop :=
  exists d,
    _fmt_duration_to_seconds (por (VideoEntry.duration v) (Some "")) = Returns d.

(** ** Sample data *)

Definition channel_a : ChannelItem.t :=
  ChannelItem.make (Some "UC-a") (Some "Channel A") "".

Definition channel_b : ChannelItem.t :=
  ChannelItem.make (Some "UC-b") (Some "Channel B") "about b".

Definition three_videos : list VideoItem.t :=
  [VideoItem.make "v1" "First" 123;
   VideoItem.make "v2" "Second" 3600;
   VideoItem.make "v3" "Third" 59].

(** Both collaborators fail. *)
Definition offline : Collaborators :=
  mkCollaborators (fun _ => Raises "network unreachable")
                  (fun _ => Raises "network unreachable").

(** Channel A is selected, with its third video selected. *)
Definition browsing_a : World :=
  with_state (mkAppState "" [channel_a; channel_b] 0 three_videos 2 None ""
                "right")
    (with_current_window videos_window initial_world).

Definition entry_with_id : VideoEntry.t :=
  VideoEntry.make (Some "abc") None (Some "With id") (Some "2:03").

Definition entry_with_link : VideoEntry.t :=
  VideoEntry.make None (Some "https://www.youtube.com/watch?v=xyz")
    (Some "With link") None.

Definition entry_without_title : VideoEntry.t :=
  VideoEntry.make (Some "abc") None None (Some "1:00").

Definition entry_without_id : VideoEntry.t :=
  VideoEntry.make None None (Some "No id") (Some "1:00").

(** ** Definitions used to state the search properties *)

(** [r.get('type') == 'channel'] *)
Definition is_channel (r : SearchResult.t) : bool :=
  match SearchResult.type r with
  | Some ty => String.eqb ty "channel"
  | None => false
  end.

(** The text a description is taken from: empty when there is no snippet
    or an empty one, the text of the first fragment otherwise; [None] when
    the first fragment has no text. *)
Definition snippet_text (r : SearchResult.t) : option string :=
  match SearchResult.descriptionSnippet r with
  | Some (f :: _) => Fragment.text f
  | _ => Some ""
  end.

Definition channel_of (r : SearchResult.t) : ChannelItem.t :=
  ChannelItem.make (SearchResult.id r) (SearchResult.title r)
    match snippet_text r with
    | Some t => t
    | None => ""
    end.

(** What the [try] block of the search computes before it assigns: the
    answer of the collaborator, passed through the loop. *)
Definition search_channels (env : Collaborators) (text : string)
  : outcome (list ChannelItem.t) :=
  obind (channel_search env text) (fun results => channel_items results []).

(** The world in which the collaborator is called: the status says
    "Searching...", a redraw is requested and the call is recorded. *)
Definition searching (text : string) (w : World) : World :=
  with_calls (calls w ++ [CallChannelSearch text])
    (with_invalidations (S (invalidations w))
       (with_state (set_status_text "Searching..." (state w)) w)).

(** The world in which the reload is called: the new channels are in
    place and the first one is selected. *)
Definition results_in_place (text : string) (chans : list ChannelItem.t)
  (w : World) : World :=
  with_state
    (set_selected_channel 0 (set_channels chans (state (searching text w))))
    (searching text w).

(** The [finally] clause: the buffer is cleared and a redraw requested. *)
Definition search_done (w : World) : World :=
  with_invalidations (S (invalidations w)) (with_buffer_text "" w).

Definition found_message (chans : list ChannelItem.t) : string :=
  "Found " ++ str_of_nat (List.length chans) ++ " channel(s).".

(** The search answers one channel whose snippet starts with a fragment
    that has no text. *)
Definition fragment_without_text : Collaborators :=
  mkCollaborators
    (fun _ => Returns [SearchResult.make (Some "channel") (Some "UC-c")
                         (Some "Channel C") (Some [Fragment.make None])])
    (fun _ => Returns []).

(** The search answers a video and two channels; listing the videos of a
    channel fails. *)
Definition search_only : Collaborators :=
  mkCollaborators
    (fun _ => Returns [SearchResult.make (Some "video") (Some "v9")
                         (Some "A video") (Some [Fragment.make None]);
                       SearchResult.make (Some "channel") (Some "UC-c")
                         (Some "Channel C") None;
                       SearchResult.make (Some "channel") (Some "UC-d")
                         (Some "Channel D")
                         (Some [Fragment.make (Some "about d")])])
    (fun _ => Raises "network unreachable").

(** Channel A is being browsed and a query has been typed. *)
Definition query_typed : World := with_buffer_text " news " browsing_a.

(** ** Definitions used to state the focus and selection properties *)

(** The pane that has the focus, read from the layout. *)
Inductive Pane : Type := SearchInput | ChannelList | VideoList.

Definition focusedPane (w : World) : Pane :=
  match current_window w with
  | search_input => SearchInput
  | channels_window => ChannelList
  | videos_window => VideoList
  end.

(** The selected channel index is 0 when there is no channel, and an index
    of the list otherwise. *)
Definition channel_selection_ok (s : AppState) : Prop :=
  match channels s with
  | [] => selected_channel s = 0
  | _ :: _ =>
      0 <= selected_channel s <= Z.of_nat (List.length (channels s)) - 1
  end.

(** A video has been selected in channel A's list and Enter pressed: its
    playback thread is started. *)
Definition playing_third : World := exec (_play_selected "audio") browsing_a.

(** ** Status hook, renderers and footer *)

(** [_patched_writestatus(text, mute)], installed as [screen.writestatus] *)
Definition _patched_writestatus (text : string) (mute : bool) : M unit :=
  assign (set_status_text text);;
  invalidate.

(** The character '\n' *)
Definition newline : string := String "010"%char "".

(** [f"{x}"] for [x] a [str] or [None] *)
Definition format_value (x : option string) : string :=
  match x with
  | Some t => t
  | None => "None"
  end.

(** The body of [for idx, ch in enumerate(state.channels)] in
    [render_channels], from the index [idx] on. *)
Fixpoint channel_lines (s : AppState) (idx : nat) (chs : list ChannelItem.t)
  : list (string * string) :=
  match chs with
  | [] => []
  | ch :: rest =>
      let here := (Z.of_nat idx =? selected_channel s)
                  && String.eqb (focused_pane s) "left" in
      let prefix := if here then "> " else "  " in
      let style_key := if here then "class:selected" else "" in
      (style_key, prefix ++ format_value (ChannelItem.title ch) ++ newline)
        :: channel_lines s (S idx) rest
  end.

(** [render_channels()] *)
Definition render_channels (s : AppState) : list (string * string) :=
  let out := [("class:title", "Channels" ++ newline)] in
  if is_nil (channels s)
  then (out ++ [("", " No channels. Type a query and press Enter.")])%list
  else (out ++ channel_lines s 0 (channels s))%list.

Definition playing_controls : string :=
  "  |  Controls: Enter=play audio, Shift+Enter=play video, Tab=switch pane, Esc=quit".

Definition help_line : string :=
  "Tab: switch pane | Up/Down: navigate | Enter: search/select | Shift+Enter: play video | Esc: quit".

(** [_compute_footer()] *)
Definition _compute_footer (s : AppState) : string :=
  match now_playing s with
  | Some (title, _) => "Playing: " ++ title ++ playing_controls
  | None => if nonempty (status_text s) then status_text s else help_line
  end.

(** ** Definitions used to state the further properties *)

(** [app.invalidate()] on a world *)
Definition redraw (w : World) : World :=
  with_invalidations (S (invalidations w)) w.

(** A listed video has an id and a title that are not empty and a length
    that is not negative. *)
Definition video_well_formed (v : VideoItem.t) : Prop :=
  nonempty (VideoItem.id v) = true
  /\ nonempty (VideoItem.title v) = true
  /\ 0 <= VideoItem.length_seconds v.

(** The selected video index is an index of the list when there is a
    video, and every listed video is well formed. *)
Definition videos_ok (s : AppState) : Prop :=
  Forall video_well_formed (videos s)
  /\ match videos s with
     | [] => True
     | _ :: _ =>
         0 <= selected_video s <= Z.of_nat (List.length (videos s)) - 1
     end.

(** When a list window has the focus, [state.focused_pane] names it. *)
Definition focus_agrees (w : World) : Prop :=
  match current_window w with
  | search_input => True
  | channels_window => focused_pane (state w) = "left"
  | videos_window => focused_pane (state w) = "right"
  end.

(** The focus is on the video list of channel A, first video selected. *)
Definition browsing_first : World :=
  with_state (set_selected_video 0 (state browsing_a)) browsing_a.

(** The focus is on the channel list, channel A selected. *)
Definition on_channel_list : World :=
  with_state (set_focused_pane "left" (state browsing_a))
    (with_current_window channels_window browsing_a).

(** Listing the videos of a channel answers one entry. *)
Definition one_video : Collaborators :=
  mkCollaborators (fun _ => Returns [])
                  (fun _ => Returns [entry_with_link]).

(** The search answers results of which none is a channel. *)
Definition no_channel : Collaborators :=
  mkCollaborators
    (fun _ => Returns [SearchResult.make (Some "video") (Some "v9")
                         (Some "A video") (Some [Fragment.make None]);
                       SearchResult.make None None None None])
    (fun _ => Raises "network unreachable").

(** The search answers two channels and listing the videos of a channel
    answers two entries. *)
Definition both_answer : Collaborators :=
  mkCollaborators
    (fun _ => Returns [SearchResult.make (Some "channel") (Some "UC-c")
                         (Some "Channel C") None;
                       SearchResult.make (Some "channel") (Some "UC-d")
                         (Some "Channel D")
                         (Some [Fragment.make (Some "about d")])])
    (fun _ => Returns [entry_with_id; entry_with_link]).

(** A search is made, the focus is moved to the video list and Down is
    pressed. *)
Definition after_search_and_down : World :=
  run_events [Edit "news"; KeyPress Enter both_answer;
              KeyPress Tab both_answer; KeyPress Tab both_answer;
              KeyPress Down both_answer] initial_world.

(** Enter has been pressed twice on the third video and both playback
    threads are at the player. *)
Definition two_playing : World :=
  exec (thread_begin 1)
    (exec (thread_begin 0) (exec on_enter (exec on_enter browsing_a))).

(** A playback is shown in the footer while a query is typed. *)
Definition typing_while_playing : World :=
  with_state (set_now_playing (Some ("Third", 59)) (state query_typed))
    query_typed.

(** While [now_playing] is set, some started thread is at the player. *)
Definition playing_has_thread (w : World) : Prop :=
  now_playing (state w) <> None ->
  exists t, In t (threads w) /\ th_running t = true.

(** An entry that the loop would drop, with a duration the parser raises
    on. *)
Definition entry_bad_duration : VideoEntry.t :=
  VideoEntry.make None None None (Some (String superscript_two ":03")).

(** Listing the videos of a channel answers a good entry and one with a
    duration the parser raises on. *)
Definition one_bad_duration : Collaborators :=
  mkCollaborators (fun _ => Returns [])
                  (fun _ => Returns [entry_with_id; entry_bad_duration]).

(** The default of [sys.get_int_max_str_digits()]: [int] refuses a
    literal with more digits, whatever they are. *)
Definition int_max_str_digits : nat := 4300.

(** * Properties *)

(** ** Strings *)

Section Split.

Variable sep : ascii.

Lemma split_not_nil (s : string) : split sep s <> [].
Proof.
  destruct s as [|c r]; simpl; [discriminate|].
  destruct (Ascii.eqb c sep); [discriminate|].
  destruct (split sep r); discriminate.
Qed.

Lemma split_free (s : string) : free_of sep s = true -> split sep s = [s].
Proof.
  induction s as [|c r IH]; simpl; intros H; [reflexivity|].
  apply andb_prop in H as [Hc Hr].
  apply negb_true_iff in Hc. rewrite Hc, (IH Hr). reflexivity.
Qed.

Lemma split_app (a b : string) :
  free_of sep a = true -> split sep (a ++ String sep b) = a :: split sep b.
Proof.
  induction a as [|c r IH]; simpl; intros H.
  - rewrite Ascii.eqb_refl. reflexivity.
  - apply andb_prop in H as [Hc Hr].
    apply negb_true_iff in Hc. rewrite Hc, (IH Hr). reflexivity.
Qed.

(** The last piece is what follows the last separator. *)
Lemma last_split (s : string) :
  let seg := last (split sep s) "" in
  free_of sep seg = true /\ (s = seg \/ exists p, s = p ++ String sep seg).
Proof.
  induction s as [|c r IH]; simpl.
  - split; [reflexivity | left; reflexivity].
  - destruct IH as [Hfree Hshape].
    destruct (Ascii.eqb_spec c sep) as [->|Hne].
    + assert (Hl : last (EmptyString :: split sep r) "" = last (split sep r) "").
      { pose proof (split_not_nil r). simpl. destruct (split sep r); congruence. }
      rewrite Hl. split; [exact Hfree|]. right.
      destruct Hshape as [Heq | [p Hp]].
      * exists "". simpl. congruence.
      * exists (String sep p). simpl. congruence.
    + pose proof (split_not_nil r) as Hnil.
      destruct (split sep r) as [|h t] eqn:E; [congruence|].
      destruct t as [|h' t'].
      * unfold free_of in *. simpl in *. split.
        -- rewrite Hfree. apply Ascii.eqb_neq in Hne. rewrite Hne. reflexivity.
        -- left. destruct Hshape as [Heq | [p Hp]]; [congruence|].
           exfalso. subst r.
           assert (Hlen : forall x y, (2 <= List.length (split sep (x ++ String sep y)))%nat).
           { clear. induction x as [|d x IHx]; intros y; simpl.
             - rewrite Ascii.eqb_refl. pose proof (split_not_nil y).
               destruct (split sep y); simpl; [congruence | lia].
             - destruct (Ascii.eqb d sep).
               + pose proof (split_not_nil (x ++ String sep y)).
                 destruct (split sep (x ++ String sep y)); simpl; [congruence | lia].
               + specialize (IHx y).
                 destruct (split sep (x ++ String sep y)); simpl in *; lia. }
           specialize (Hlen p h). rewrite E in Hlen. simpl in Hlen. lia.
      * change (last (String c h :: h' :: t') "") with (last (h' :: t') "").
        change (last (h :: h' :: t') "") with (last (h' :: t') "") in Hfree, Hshape.
        split; [exact Hfree|]. right.
        destruct Hshape as [Heq | [p Hp]].
        -- exfalso. subst r.
           rewrite (split_free _ Hfree) in E. discriminate.
        -- exists (String c p). simpl append. f_equal. exact Hp.
Qed.

End Split.

Lemma decimal_is_digit (s : string) : isdecimal s = true -> isdigit s = true.
Proof.
  unfold isdecimal, isdigit. intros H. apply andb_prop in H as [Hn Ha].
  rewrite Hn. simpl. clear Hn.
  induction s as [|c r IH]; simpl in *; [reflexivity|].
  apply andb_prop in Ha as [Hc Hr].
  rewrite (IH Hr). unfold isdigit_char. rewrite Hc. reflexivity.
Qed.

Lemma decimal_free_of (sep : ascii) (s : string) :
  is_decimal sep = false -> all_chars is_decimal s = true -> free_of sep s = true.
Proof.
  intros Hsep. unfold free_of.
  induction s as [|c r IH]; simpl; intros H; [reflexivity|].
  apply andb_prop in H as [Hc Hr]. rewrite (IH Hr), andb_true_r.
  apply negb_true_iff. destruct (Ascii.eqb_spec c sep); [congruence | reflexivity].
Qed.

Lemma int_decimal (s : string) :
  isdecimal s = true -> int s = Returns (decimal_value 0 s).
Proof. unfold int. intros ->. reflexivity. Qed.

Lemma decimal_value_nonneg (s : string) (acc : Z) :
  all_chars is_decimal s = true -> 0 <= acc -> 0 <= decimal_value acc s.
Proof.
  revert acc.
  induction s as [|c r IH]; cbn [decimal_value all_chars]; intros acc H Hacc;
    [exact Hacc|].
  apply andb_prop in H as [Hc Hr]. apply IH; [exact Hr|].
  unfold is_decimal in Hc. apply andb_prop in Hc as [H1 H2].
  apply N.leb_le in H1. apply N.leb_le in H2. unfold digit_value. lia.
Qed.

(** ** Duration parser *)

Example dur_2_03 : _fmt_duration_to_seconds (Some "2:03") = Returns 123.
Proof. reflexivity. Qed.

Example dur_1_00_00 : _fmt_duration_to_seconds (Some "1:00:00") = Returns 3600.
Proof. reflexivity. Qed.

(** A component that is not numeric is dropped before the count is taken:
    here the minutes go, and the hour is read as minutes. *)
Example dur_quirk : _fmt_duration_to_seconds (Some "1:2a:03") = Returns 63.
Proof. reflexivity. Qed.

Example dur_absent :
  _fmt_duration_to_seconds None = Returns 0
  /\ _fmt_duration_to_seconds (Some "") = Returns 0.
Proof. split; reflexivity. Qed.

Lemma dur_nonempty (d : string) :
  nonempty d = true ->
  _fmt_duration_to_seconds (Some d) =
  obind (omap int (filter isdigit (split ":" d)))
    (fun parts =>
       match parts with
       | [h; m; s] => Returns (h * 3600 + m * 60 + s)
       | [m; s] => Returns (m * 60 + s)
       | _ => Returns 0
       end).
Proof. unfold _fmt_duration_to_seconds. simpl. intros ->. reflexivity. Qed.

Lemma nonempty_app (a b : string) : nonempty a = true -> nonempty (a ++ b) = true.
Proof. destruct a; [discriminate | reflexivity]. Qed.

(** On "M:SS" with both components written in decimal digits the parser
    returns M*60+S. *)
Lemma dur_two_components (m s : string) :
  isdecimal m = true -> isdecimal s = true ->
  _fmt_duration_to_seconds (Some (m ++ ":" ++ s)) =
  Returns (decimal_value 0 m * 60 + decimal_value 0 s).
Proof.
  intros Hm Hs.
  pose proof (decimal_is_digit _ Hm) as Dm. pose proof (decimal_is_digit _ Hs) as Ds.
  unfold isdecimal in Hm, Hs.
  apply andb_prop in Hm as [Nm Am]. apply andb_prop in Hs as [Ns As].
  rewrite dur_nonempty by (apply nonempty_app; exact Nm).
  simpl append. rewrite split_app by (apply decimal_free_of; [reflexivity | exact Am]).
  rewrite split_free by (apply decimal_free_of; [reflexivity | exact As]).
  simpl filter. rewrite Dm, Ds. simpl omap.
  rewrite !int_decimal by (unfold isdecimal; rewrite ?Nm, ?Ns, ?Am, ?As; reflexivity).
  reflexivity.
Qed.

(** On "H:MM:SS" with the three components written in decimal digits the
    parser returns H*3600+M*60+S. *)
Lemma dur_three_components (h m s : string) :
  isdecimal h = true -> isdecimal m = true -> isdecimal s = true ->
  _fmt_duration_to_seconds (Some (h ++ ":" ++ m ++ ":" ++ s)) =
  Returns (decimal_value 0 h * 3600 + decimal_value 0 m * 60 + decimal_value 0 s).
Proof.
  intros Hh Hm Hs.
  pose proof (decimal_is_digit _ Hh) as Dh.
  pose proof (decimal_is_digit _ Hm) as Dm. pose proof (decimal_is_digit _ Hs) as Ds.
  unfold isdecimal in Hh, Hm, Hs.
  apply andb_prop in Hh as [Nh Ah].
  apply andb_prop in Hm as [Nm Am]. apply andb_prop in Hs as [Ns As].
  rewrite dur_nonempty by (apply nonempty_app; exact Nh).
  simpl append. rewrite split_app by (apply decimal_free_of; [reflexivity | exact Ah]).
  rewrite split_app by (apply decimal_free_of; [reflexivity | exact Am]).
  rewrite split_free by (apply decimal_free_of; [reflexivity | exact As]).
  simpl filter. rewrite Dh, Dm, Ds. simpl omap.
  rewrite !int_decimal by (unfold isdecimal; rewrite ?Nh, ?Nm, ?Ns, ?Ah, ?Am, ?As; reflexivity).
  reflexivity.
Qed.

Lemma omap_int_decimal (l : list string) :
  Forall (fun x => isdecimal x = true) l ->
  omap int l = Returns (map (decimal_value 0) l).
Proof.
  induction 1 as [|x r Hx Hr IH]; simpl; [reflexivity|].
  rewrite (int_decimal x Hx). simpl. rewrite IH. reflexivity.
Qed.

(** When every component that passes the filter is written in decimal
    digits, the parser returns: the seconds for two or three such
    components, and 0 for any other number of them. *)
Lemma dur_decimal_tokens (d : string) :
  nonempty d = true ->
  Forall (fun x => isdecimal x = true) (filter isdigit (split ":" d)) ->
  _fmt_duration_to_seconds (Some d) =
  Returns match map (decimal_value 0) (filter isdigit (split ":" d)) with
          | [h; m; s] => h * 3600 + m * 60 + s
          | [m; s] => m * 60 + s
          | _ => 0
          end.
Proof.
  intros Hn Hd. rewrite (dur_nonempty d Hn), (omap_int_decimal _ Hd).
  simpl obind.
  destruct (map (decimal_value 0) (filter isdigit (split ":" d)))
    as [|a [|b [|c [|x r]]]]; reflexivity.
Qed.

(** C5 (defect): the filter keeps every component that passes
    [str.isdigit], and that test accepts the superscript digits, which
    [int] refuses.  On the duration made of the single character U+00B2
    there is one numeric token, so the parser should return 0; the
    conversion raises ValueError instead, and so does "<U+00B2>:03". *)
Theorem dur_superscript_raises :
  isdigit (String superscript_two "") = true
  /\ _fmt_duration_to_seconds (Some (String superscript_two "")) =
     Raises ("invalid literal for int() with base 10: '"
             ++ String superscript_two "'")
  /\ _fmt_duration_to_seconds (Some (String superscript_two ":03")) =
     Raises ("invalid literal for int() with base 10: '"
             ++ String superscript_two "'").
Proof. repeat split; reflexivity. Qed.

(** ** Video-list reload *)

Lemma video_items_acc (vids : list VideoEntry.t) :
  (forall v, In v vids -> duration_parses v) ->
  forall acc, video_items vids acc = Returns (acc ++ flat_map listing vids)%list.
Proof.
  induction vids as [|v rest IH]; intros Hd acc; simpl.
  - rewrite app_nil_r. reflexivity.
  - destruct (Hd v (or_introl eq_refl)) as [d Hv].
    assert (Hrest : forall u, In u rest -> duration_parses u)
      by (intros u Hu; apply Hd; right; exact Hu).
    unfold listing, entry_seconds. rewrite Hv. simpl obind.
    destruct (entry_vid v) as [i|], (VideoEntry.title v) as [t|];
      try (rewrite (IH Hrest); reflexivity).
    simpl truthy. destruct (nonempty i && nonempty t).
    + rewrite (IH Hrest), <- app_assoc. reflexivity.
    + rewrite (IH Hrest). reflexivity.
Qed.

(** An exception can leave the loop only from the duration of an entry. *)
Lemma video_items_raises (vids : list VideoEntry.t) :
  forall acc e, video_items vids acc = Raises e ->
  exists v, In v vids
    /\ _fmt_duration_to_seconds (por (VideoEntry.duration v) (Some "")) = Raises e.
Proof.
  induction vids as [|v rest IH]; intros acc e; simpl; [discriminate|].
  destruct (_fmt_duration_to_seconds (por (VideoEntry.duration v) (Some "")))
    as [d|e'] eqn:Hv; simpl.
  - intros H.
    assert (exists acc', video_items rest acc' = Raises e) as [acc' H'].
    { destruct (entry_vid v), (VideoEntry.title v); try (eexists; exact H).
      destruct (truthy _ && truthy _); eexists; exact H. }
    destruct (IH _ _ H') as [u [Hu Hr]]. exists u. split; [right; exact Hu | exact Hr].
  - intros [= <-]. exists v. split; [left; reflexivity | exact Hv].
Qed.

Lemma getitem_nil {A} (i : Z) : getitem (@nil A) i = None.
Proof.
  unfold getitem. simpl.
  destruct ((0 <=? i) && (i <? 0)) eqn:E1; [lia|].
  destruct ((- 0 <=? i) && (i <? 0)) eqn:E2; [lia | reflexivity].
Qed.

(** The reload, case by case. *)
Lemma reload_eq (env : Collaborators) (w : World) :
  _load_videos_for_selected env w =
  match channels (state w) with
  | [] => (with_state (set_videos [] (state w)) w, Returns tt)
  | _ :: _ =>
      match getitem (channels (state w)) (selected_channel (state w)) with
      | None => (w, Raises "list index out of range")
      | Some ch =>
          let w1 := with_calls (calls w ++ [CallAllVideos (ChannelItem.id ch)]) w in
          match fetch_videos env ch with
          | Returns items =>
              (with_state (set_selected_video 0 (set_videos items (state w1))) w1,
               Returns tt)
          | Raises e =>
              (with_state
                 (set_videos []
                    (set_status_text ("Failed to load videos: " ++ e) (state w1)))
                 w1,
               Returns tt)
          end
      end
  end.
Proof.
  unfold _load_videos_for_selected, bind, read. simpl.
  destruct (channels (state w)) as [|c cs] eqn:Hc; [reflexivity|]. simpl.
  unfold index.
  destruct (getitem (c :: cs) (selected_channel (state w))) as [ch|]; [|reflexivity].
  unfold ret, try_except, bind, record_call, update, lift, assign, fetch_videos.
  simpl.
  destruct (all_videos_from_channel env (ChannelItem.id ch)) as [vids|e];
    [|reflexivity].
  simpl. destruct (video_items vids []); reflexivity.
Qed.

(** C1 (as amended): in a state where a channel is selected the reload
    returns normally and leaves the channel list and its selection alone.
    When the collaborator answers and the entries are read, [videos] is
    replaced and [selected_video] is reset to 0, the status being kept.  On
    a failure [videos] is emptied and the status is the failure message,
    and [selected_video] is left as it was.  So after the reload either the
    selected index is 0 or there is no video for it to point at. *)
Theorem reload_selected_video (env : Collaborators) (w : World)
  (ch : ChannelItem.t) :
  getitem (channels (state w)) (selected_channel (state w)) = Some ch ->
  let r := _load_videos_for_selected env w in
  let s' := state (fst r) in
  snd r = Returns tt
  /\ channels s' = channels (state w)
  /\ selected_channel s' = selected_channel (state w)
  /\ match fetch_videos env ch with
     | Returns items =>
         videos s' = items
         /\ selected_video s' = 0
         /\ status_text s' = status_text (state w)
     | Raises e =>
         videos s' = []
         /\ status_text s' = "Failed to load videos: " ++ e
         /\ selected_video s' = selected_video (state w)
     end
  /\ (selected_video s' = 0 \/ videos s' = []).
Proof.
  intros Hch. rewrite reload_eq.
  destruct (channels (state w)) as [|c cs] eqn:Hc.
  - rewrite getitem_nil in Hch. discriminate.
  - rewrite Hch. cbv zeta.
    destruct (fetch_videos env ch) as [items|e]; simpl; rewrite ?Hc; auto 10.
Qed.

Lemma reload_selected_video_witness :
  getitem (channels (state browsing_a)) (selected_channel (state browsing_a))
  = Some channel_a
  /\ videos (state (fst (_load_videos_for_selected offline browsing_a))) = [].
Proof.
  split; [reflexivity|].
  pose proof (reload_selected_video offline browsing_a channel_a eq_refl) as H.
  simpl in H. apply H.
Defined.

(** C1 fails as stated: when the reload fails the index selected in the
    previous list is still there. *)
Lemma reload_failure_keeps_selected_video :
  fetch_videos offline channel_a = Raises "network unreachable"
  /\ selected_video (state (fst (_load_videos_for_selected offline browsing_a))) = 2
  /\ selected_video (state (fst (_load_videos_for_selected offline browsing_a))) <> 0.
Proof. split; [reflexivity | split; [reflexivity | discriminate]]. Qed.

Lemma entry_vid_cases (v : VideoEntry.t) (i : string) :
  entry_vid v = Some i ->
  (VideoEntry.id v = Some i /\ nonempty i = true)
  \/ (truthy (VideoEntry.id v) = false
      /\ exists l, VideoEntry.link v = Some l /\ nonempty l = true
           /\ i = last (split "=" l) ""
           /\ free_of "=" i = true
           /\ (l = i \/ exists p, l = p ++ String "=" i)).
Proof.
  unfold entry_vid, por. destruct (truthy (VideoEntry.id v)) eqn:Hid.
  - intros H. left. split; [exact H|]. rewrite H in Hid. exact Hid.
  - intros H. right. split; [reflexivity|].
    destruct (VideoEntry.link v) as [l|]; simpl in H; [|discriminate].
    destruct (nonempty l) eqn:Hl; [|discriminate].
    injection H as <-. exists l.
    pose proof (last_split "=" l) as [Hf Hs].
    split; [reflexivity|]. split; [exact Hl|]. split; [reflexivity|].
    split; [exact Hf | exact Hs].
Qed.

(** C2 (as amended): when the durations are ones the parser returns on,
    the loop returns, in order, one item for each entry whose id and title
    are both present and not empty, and drops every entry that lacks
    either.  The id of an item is the explicit id when there is one, and
    otherwise what follows the last '=' of the link. *)
Theorem reload_keeps_entries_with_id_and_title (vids : list VideoEntry.t) :
  (forall v, In v vids -> duration_parses v) ->
  video_items vids [] = Returns (flat_map listing vids)
  /\ (forall v, In v vids ->
        (listing v = []
         <-> truthy (entry_vid v) && truthy (VideoEntry.title v) = false)
        /\ (forall it, In it (listing v) ->
              entry_vid v = Some (VideoItem.id it)
              /\ VideoEntry.title v = Some (VideoItem.title it)
              /\ VideoItem.length_seconds it = entry_seconds v))
  /\ (forall v i, entry_vid v = Some i ->
        (VideoEntry.id v = Some i /\ nonempty i = true)
        \/ (truthy (VideoEntry.id v) = false
            /\ exists l, VideoEntry.link v = Some l /\ nonempty l = true
                 /\ i = last (split "=" l) ""
                 /\ free_of "=" i = true
                 /\ (l = i \/ exists p, l = p ++ String "=" i))).
Proof.
  intros Hd. split; [|split].
  - rewrite (video_items_acc vids Hd []). reflexivity.
  - intros v _. unfold listing.
    destruct (entry_vid v) as [i|], (VideoEntry.title v) as [t|]; simpl;
      try (split; [split; [reflexivity | reflexivity] | intros it []]);
      try (rewrite andb_false_r;
           split; [split; reflexivity | intros it []]).
    destruct (nonempty i && nonempty t); split.
    + split; discriminate.
    + intros it [<-|[]]. repeat split.
    + split; reflexivity.
    + intros it [].
  - exact entry_vid_cases.
Qed.

Lemma reload_keeps_entries_with_id_and_title_witness :
  video_items [entry_with_id; entry_with_link; entry_without_id] [] =
  Returns [VideoItem.make "abc" "With id" 123; VideoItem.make "xyz" "With link" 0].
Proof.
  refine (proj1 (reload_keeps_entries_with_id_and_title
                   [entry_with_id; entry_with_link; entry_without_id] _)).
  intros v [<-|[<-|[<-|[]]]]; eexists; reflexivity.
Defined.

(** C2 fails as stated: an entry with an id and no title is dropped, and
    so is one with a title and no id. *)
Lemma entry_missing_one_field_is_dropped :
  truthy (VideoEntry.id entry_without_title) = true
  /\ video_items [entry_without_title] [] = Returns []
  /\ truthy (VideoEntry.title entry_without_id) = true
  /\ video_items [entry_without_id] [] = Returns [].
Proof. repeat split; reflexivity. Qed.

(** ** Search *)

Lemma channel_items_acc (results : list SearchResult.t) :
  (forall r, In r results -> is_channel r = true -> snippet_text r <> None) ->
  forall acc,
    channel_items results acc =
    Returns (acc ++ map channel_of (filter is_channel results))%list.
Proof.
  induction results as [|r rest IH]; intros Hok acc; simpl.
  - rewrite app_nil_r. reflexivity.
  - assert (Hrest : forall u, In u rest -> is_channel u = true -> snippet_text u <> None)
      by (intros u Hu; apply Hok; right; exact Hu).
    fold (is_channel r). destruct (is_channel r) eqn:Hr; simpl.
    + specialize (Hok r (or_introl eq_refl) Hr).
      unfold result_description, channel_of. unfold snippet_text in Hok |- *.
      destruct (SearchResult.descriptionSnippet r) as [[|f fs]|]; simpl.
      * rewrite (IH Hrest), <- app_assoc. reflexivity.
      * destruct (Fragment.text f) as [t|]; [|congruence]. simpl.
        rewrite (IH Hrest), <- app_assoc. reflexivity.
      * rewrite (IH Hrest), <- app_assoc. reflexivity.
    + apply (IH Hrest).
Qed.

(** With the first channel selected the reload does not raise. *)
Lemma reload_first_returns (env : Collaborators) (w : World) :
  selected_channel (state w) = 0 ->
  snd (_load_videos_for_selected env w) = Returns tt.
Proof.
  intros H0. rewrite reload_eq, H0.
  destruct (channels (state w)) as [|c cs]; [reflexivity|].
  change (getitem (c :: cs) 0) with (Some c). cbv beta iota zeta.
  destruct (fetch_videos env c) as [items|e]; reflexivity.
Qed.

(** The accept handler, case by case. *)
Lemma search_eq (env : Collaborators) (w : World) :
  nonempty (strip (buffer_text w)) = true ->
  let text := strip (buffer_text w) in
  _handle_search_accept env w =
  match search_channels env text with
  | Raises e =>
      (search_done
         (with_state (set_status_text ("Search failed: " ++ e)
                        (state (searching text w)))
            (searching text w)),
       Returns tt)
  | Returns chans =>
      let w3 := fst (_load_videos_for_selected env (results_in_place text chans w)) in
      (search_done
         (with_state (set_status_text (found_message chans) (state w3)) w3),
       Returns tt)
  end.
Proof.
  intros Hne. unfold _handle_search_accept. cbv zeta.
  set (text := strip (buffer_text w)) in *. rewrite Hne.
  simpl negb. cbv iota.
  cbv [bind assign invalidate update try_finally try_except record_call lift].
  change (with_calls _ _) with (searching text w).
  unfold search_channels.
  destruct (channel_search env text) as [results|e]; [|reflexivity].
  simpl obind.
  destruct (channel_items results []) as [chans|e]; [|reflexivity].
  match goal with
  | |- ?L = _ =>
      match L with
      | context [_load_videos_for_selected env ?W] =>
          change W with (results_in_place text chans w)
      end
  end.
  pose proof (reload_first_returns env (results_in_place text chans w) eq_refl) as Hr.
  destruct (_load_videos_for_selected env (results_in_place text chans w))
    as [w3 [[]|e]]; simpl in Hr; [|discriminate].
  reflexivity.
Qed.

(** What the reload leaves alone, and the call it makes. *)
Lemma reload_frame (env : Collaborators) (w : World) :
  let w' := fst (_load_videos_for_selected env w) in
  channels (state w') = channels (state w)
  /\ selected_channel (state w') = selected_channel (state w)
  /\ now_playing (state w') = now_playing (state w)
  /\ focused_pane (state w') = focused_pane (state w)
  /\ current_window w' = current_window w
  /\ buffer_text w' = buffer_text w
  /\ threads w' = threads w
  /\ calls w' =
     (calls w ++
      match getitem (channels (state w)) (selected_channel (state w)) with
      | Some ch => [CallAllVideos (ChannelItem.id ch)]
      | None => []
      end)%list.
Proof.
  rewrite reload_eq.
  destruct (channels (state w)) as [|c cs] eqn:Hc.
  - rewrite getitem_nil. simpl. rewrite Hc, app_nil_r. auto 10.
  - destruct (getitem (c :: cs) (selected_channel (state w))) as [ch|].
    + cbv zeta. destruct (fetch_videos env ch); simpl; rewrite Hc; auto 10.
    + simpl. rewrite Hc, app_nil_r. auto 10.
Qed.

(** C3 (as amended): a submitted search that is not empty, that the
    collaborator answers, and in which every result typed "channel" has no
    snippet, an empty one, or one that starts with a fragment with a text,
    returns with the channel list replaced by the results typed "channel"
    whatever it held, the first channel selected, one reload run on that
    selection (one call of the video collaborator when there is a channel,
    for the first of them), the buffer cleared and the status giving the
    number of channels.  The description of a channel is empty when there
    is no snippet or an empty one, and the text of the first fragment
    otherwise. *)
Theorem search_success_replaces_channels (env : Collaborators) (w : World)
  (results : list SearchResult.t) :
  nonempty (strip (buffer_text w)) = true ->
  channel_search env (strip (buffer_text w)) = Returns results ->
  (forall r, In r results -> is_channel r = true -> snippet_text r <> None) ->
  let text := strip (buffer_text w) in
  let chans := map channel_of (filter is_channel results) in
  let r := _handle_search_accept env w in
  let w' := fst r in
  snd r = Returns tt
  /\ channels (state w') = chans
  /\ selected_channel (state w') = 0
  /\ state w' =
     set_status_text (found_message chans)
       (state (fst (_load_videos_for_selected env
                      (results_in_place text chans w))))
  /\ status_text (state w') = found_message chans
  /\ calls w' =
     (calls w ++ CallChannelSearch text ::
      match chans with
      | [] => []
      | ch :: _ => [CallAllVideos (ChannelItem.id ch)]
      end)%list
  /\ buffer_text w' = ""
  /\ (forall r f fs,
        SearchResult.descriptionSnippet r = Some (f :: fs) ->
        Fragment.text f <> None ->
        Some (ChannelItem.description (channel_of r)) = Fragment.text f)
  /\ (forall r,
        SearchResult.descriptionSnippet r = None
        \/ SearchResult.descriptionSnippet r = Some [] ->
        ChannelItem.description (channel_of r) = "").
Proof.
  intros Hne Hs Hok text chans r w'. subst r w'.
  rewrite (search_eq env w Hne). cbv zeta.
  unfold search_channels. rewrite Hs. simpl obind.
  rewrite (channel_items_acc results Hok []). simpl app.
  fold text. fold chans.
  pose proof (reload_frame env (results_in_place text chans w)) as F.
  cbv zeta in F. destruct F as (Fc & Fs & _ & _ & _ & _ & _ & Fcalls).
  set (w3 := fst (_load_videos_for_selected env (results_in_place text chans w))) in *.
  simpl. rewrite Fc, Fs, Fcalls. simpl.
  split; [reflexivity|]. split; [reflexivity|]. split; [reflexivity|].
  split; [reflexivity|]. split; [reflexivity|]. split.
  { rewrite <- app_assoc. f_equal. simpl. f_equal.
    destruct chans as [|c cs]; [rewrite getitem_nil|]; reflexivity. }
  split; [reflexivity|]. split.
  - intros r f fs Hr Hf. unfold channel_of, snippet_text. rewrite Hr.
    destruct (Fragment.text f); [reflexivity | congruence].
  - intros r [Hr|Hr]; unfold channel_of, snippet_text; rewrite Hr; reflexivity.
Qed.

Lemma search_success_replaces_channels_witness :
  channels (state (fst (_handle_search_accept search_only query_typed))) =
  [ChannelItem.make (Some "UC-c") (Some "Channel C") "";
   ChannelItem.make (Some "UC-d") (Some "Channel D") "about d"].
Proof.
  refine (proj1 (proj2 (search_success_replaces_channels search_only query_typed
                          _ eq_refl eq_refl _))).
  intros r [<-|[<-|[<-|[]]]] H; simpl in *; discriminate.
Defined.

(** C3 fails as stated: the collaborator answers, the snippet of the one
    channel starts with a fragment that has no text, and the handler ends
    on the failure path, with the old channels still in place. *)
Lemma search_fragment_without_text_fails :
  nonempty (strip (buffer_text query_typed)) = true
  /\ (exists results,
        channel_search fragment_without_text (strip (buffer_text query_typed))
        = Returns results)
  /\ channels (state (fst (_handle_search_accept fragment_without_text query_typed)))
     = [channel_a; channel_b]
  /\ status_text (state (fst (_handle_search_accept fragment_without_text query_typed)))
     = "Search failed: 'text'".
Proof.
  split; [reflexivity|]. split; [eexists; reflexivity|]. split; reflexivity.
Qed.

Lemma contains_suffix (p e : string) : contains e (p ++ e).
Proof.
  exists p, "". f_equal.
  induction e as [|c r IH]; simpl; [reflexivity | f_equal; exact IH].
Qed.

(** C4: a submitted search that is not empty and on which the collaborator
    raises returns with the channels, their selection, the videos and
    their selection as they were, and the status "Search failed: "
    followed by the text of the exception. *)
Theorem search_failure_keeps_lists (env : Collaborators) (w : World)
  (e : string) :
  nonempty (strip (buffer_text w)) = true ->
  channel_search env (strip (buffer_text w)) = Raises e ->
  let r := _handle_search_accept env w in
  let s' := state (fst r) in
  snd r = Returns tt
  /\ channels s' = channels (state w)
  /\ selected_channel s' = selected_channel (state w)
  /\ videos s' = videos (state w)
  /\ selected_video s' = selected_video (state w)
  /\ status_text s' = "Search failed: " ++ e
  /\ contains e (status_text s').
Proof.
  intros Hne Hs r s'. subst r s'.
  rewrite (search_eq env w Hne). unfold search_channels. rewrite Hs.
  simpl. repeat (split; [reflexivity|]).
  apply (contains_suffix "Search failed: " e).
Qed.

Lemma search_failure_keeps_lists_witness :
  channels (state (fst (_handle_search_accept offline query_typed)))
  = [channel_a; channel_b]
  /\ status_text (state (fst (_handle_search_accept offline query_typed)))
     = "Search failed: network unreachable".
Proof.
  pose proof (search_failure_keeps_lists offline query_typed
                "network unreachable" eq_refl eq_refl) as H.
  cbv zeta in H. destruct H as (_ & Hc & _ & _ & _ & Hst & _).
  split; [exact Hc | exact Hst].
Defined.

(** The failure path of the reload. *)
Lemma reload_failure (env : Collaborators) (w : World) (ch : ChannelItem.t)
  (e : string) :
  getitem (channels (state w)) (selected_channel (state w)) = Some ch ->
  fetch_videos env ch = Raises e ->
  let s' := state (fst (_load_videos_for_selected env w)) in
  channels s' = channels (state w)
  /\ videos s' = []
  /\ status_text s' = "Failed to load videos: " ++ e.
Proof.
  intros Hch Hf. rewrite reload_eq.
  destruct (channels (state w)) as [|c cs] eqn:Hc.
  - rewrite getitem_nil in Hch. discriminate.
  - rewrite Hch. cbv zeta. rewrite Hf. simpl. rewrite Hc. auto.
Qed.

(** C10: when the search gives channels and the reload it triggers fails,
    the reload leaves the status "Failed to load videos: ..." and the
    handler then overwrites it with the count, so that at the end of the
    search the status is "Found N channel(s)." and not the failure of the
    reload, while [videos] is empty. *)
Theorem reload_failure_hidden_by_count (env : Collaborators) (w : World)
  (chans : list ChannelItem.t) (ch : ChannelItem.t) (e : string) :
  nonempty (strip (buffer_text w)) = true ->
  search_channels env (strip (buffer_text w)) = Returns chans ->
  getitem chans 0 = Some ch ->
  fetch_videos env ch = Raises e ->
  let text := strip (buffer_text w) in
  let mid := fst (_load_videos_for_selected env (results_in_place text chans w)) in
  let w' := fst (_handle_search_accept env w) in
  status_text (state mid) = "Failed to load videos: " ++ e
  /\ status_text (state w') = found_message chans
  /\ status_text (state w') <> "Failed to load videos: " ++ e
  /\ videos (state w') = []
  /\ channels (state w') = chans.
Proof.
  intros Hne Hs Hch Hf text mid w'. subst mid w'.
  rewrite (search_eq env w Hne). cbv zeta. rewrite Hs. fold text.
  pose proof (reload_failure env (results_in_place text chans w) ch e Hch Hf) as R.
  cbv zeta in R. destruct R as (Rc & Rv & Rst).
  set (w3 := fst (_load_videos_for_selected env (results_in_place text chans w))) in *.
  simpl. rewrite Rv, Rst, Rc. simpl.
  split; [reflexivity|]. split; [reflexivity|]. split; [discriminate|].
  split; reflexivity.
Qed.

Lemma reload_failure_hidden_by_count_witness :
  status_text (state (fst (_handle_search_accept search_only query_typed)))
  = "Found 2 channel(s)."
  /\ videos (state (fst (_handle_search_accept search_only query_typed))) = [].
Proof.
  pose proof (reload_failure_hidden_by_count search_only query_typed
                [ChannelItem.make (Some "UC-c") (Some "Channel C") "";
                 ChannelItem.make (Some "UC-d") (Some "Channel D") "about d"]
                (ChannelItem.make (Some "UC-c") (Some "Channel C") "")
                "network unreachable" eq_refl eq_refl eq_refl eq_refl) as H.
  cbv zeta in H. destruct H as (_ & Hst & _ & Hv & _).
  split; [exact Hst | exact Hv].
Defined.

(** ** Focus *)

(** C6: from the search input, a first Tab gives the focus to the channel
    list, a second one to the video list, and a third one back to the
    search input.  [state.focused_pane] is 'left' after the first and
    'right' after the second. *)
Theorem tab_cycles_focus (w : World) :
  focusedPane w = SearchInput ->
  let w1 := exec on_tab w in
  let w2 := exec on_tab w1 in
  let w3 := exec on_tab w2 in
  focusedPane w1 = ChannelList
  /\ focusedPane w2 = VideoList
  /\ focusedPane w3 = SearchInput
  /\ focused_pane (state w1) = "left"
  /\ focused_pane (state w2) = "right".
Proof.
  unfold focusedPane. intros H.
  destruct (current_window w) eqn:Hw; try discriminate.
  unfold exec, on_tab, bind, has_focus_search_input. rewrite Hw. simpl.
  repeat split; reflexivity.
Qed.

Lemma tab_cycles_focus_witness :
  focusedPane initial_world = SearchInput
  /\ focusedPane (exec on_tab (exec on_tab (exec on_tab initial_world)))
     = SearchInput.
Proof.
  split; [reflexivity|].
  apply (tab_cycles_focus initial_world eq_refl).
Defined.

(** ** Playback *)

(** C7: when the player call ends, [_run] returns and [now_playing] is
    cleared, whatever the end was.  A KeyboardInterrupt is swallowed and
    the status is left as it was, as it is when the player returns; any
    other exception puts "Playback error: " and its text in the status.
    When nothing else wrote the status since the thread cleared it, an
    interrupted playback ends with the empty status. *)
Theorem playback_end (w : World) (o : play_outcome) :
  let r := _run_end o w in
  let s' := state (fst r) in
  snd r = Returns tt
  /\ now_playing s' = None
  /\ invalidations (fst r) = S (invalidations w)
  /\ match o with
     | PlayReturns => status_text s' = status_text (state w)
     | PlayKeyboardInterrupt => status_text s' = status_text (state w)
     | PlayRaises e =>
         status_text s' = "Playback error: " ++ e
         /\ contains e (status_text s')
     end
  /\ (forall vid,
        status_text
          (state (exec (_run_begin vid;; _run_end PlayKeyboardInterrupt) w)) = ""
        /\ now_playing
             (state (exec (_run_begin vid;; _run_end PlayKeyboardInterrupt) w))
           = None).
Proof.
  destruct o as [| |e]; simpl; repeat (split; try reflexivity).
  apply (contains_suffix "Playback error: " e).
Qed.

(** ** Selection invariant *)

Ltac run_stmt :=
  cbv [exec bind read assign update ret raise invalidate record_call focus
       has_focus_search_input index lift try_except try_finally].

Lemma play_selected_frame (mode : string) (w : World) :
  state (fst (_play_selected mode w)) = state w.
Proof.
  unfold _play_selected. run_stmt.
  destruct (videos (state w)) as [|v vs]; [reflexivity|].
  cbn [is_nil]. cbv beta iota.
  destruct (getitem (v :: vs) (selected_video (state w))); reflexivity.
Qed.

Lemma search_frame (env : Collaborators) (w : World) :
  let w' := fst (_handle_search_accept env w) in
  threads w' = threads w
  /\ current_window w' = current_window w
  /\ ((channels (state w') = channels (state w)
       /\ selected_channel (state w') = selected_channel (state w))
      \/ selected_channel (state w') = 0).
Proof.
  destruct (nonempty (strip (buffer_text w))) eqn:Hne.
  - rewrite (search_eq env w Hne). cbv zeta.
    destruct (search_channels env (strip (buffer_text w))) as [chans|e].
    + pose proof (reload_frame env
                    (results_in_place (strip (buffer_text w)) chans w)) as F.
      cbv zeta in F. destruct F as (_ & Fs & _ & _ & Fw & _ & Ft & _).
      simpl. rewrite Fs, Fw, Ft. simpl. auto.
    + simpl. auto.
  - unfold _handle_search_accept. cbv zeta. rewrite Hne. simpl. auto.
Qed.

Lemma search_selection (env : Collaborators) (w : World) :
  channel_selection_ok (state w) ->
  channel_selection_ok (state (fst (_handle_search_accept env w))).
Proof.
  intros Hok.
  destruct (nonempty (strip (buffer_text w))) eqn:Hne.
  - rewrite (search_eq env w Hne). cbv zeta.
    destruct (search_channels env (strip (buffer_text w))) as [chans|e].
    + pose proof (reload_frame env
                    (results_in_place (strip (buffer_text w)) chans w)) as F.
      cbv zeta in F. destruct F as (Fc & Fs & _).
      unfold channel_selection_ok. simpl. rewrite Fc, Fs. simpl.
      destruct chans as [|c cs]; [reflexivity|]. simpl List.length. lia.
    + exact Hok.
  - unfold _handle_search_accept. cbv zeta. rewrite Hne. exact Hok.
Qed.

Lemma up_selection (env : Collaborators) (w : World) :
  channel_selection_ok (state w) ->
  channel_selection_ok (state (exec (on_up env) w)).
Proof.
  intros Hok. unfold on_up. run_stmt.
  destruct (current_window w); try exact Hok;
    (destruct (String.eqb (focused_pane (state w)) "left"); simpl andb;
     [ destruct (channels (state w)) as [|c cs] eqn:Hc; simpl;
       [ destruct (String.eqb (focused_pane (state w)) "right"
                   && negb (is_nil (videos (state w))));
         unfold channel_selection_ok in *; simpl; rewrite Hc in *; exact Hok
       | match goal with
         | |- context [_load_videos_for_selected env ?W] =>
             pose proof (reload_frame env W) as F; cbv zeta in F;
             destruct F as (Fc & Fs & _);
             destruct (_load_videos_for_selected env W) as [w' [u|e]];
             simpl in *; unfold channel_selection_ok in *;
             rewrite Fc, Fs, Hc in *; simpl List.length in *; lia
         end ]
     | destruct (String.eqb (focused_pane (state w)) "right"
                 && negb (is_nil (videos (state w))));
       unfold channel_selection_ok in *; simpl; exact Hok ]).
Qed.

Lemma down_selection (env : Collaborators) (w : World) :
  channel_selection_ok (state w) ->
  channel_selection_ok (state (exec (on_down env) w)).
Proof.
  intros Hok. unfold on_down. run_stmt.
  destruct (current_window w); [exact Hok | | ]; cbv beta iota;
    revert Hok; unfold channel_selection_ok at 1;
    (destruct (channels (state w)) as [|c cs] eqn:Hc; intros Hok;
     [ cbn [is_nil negb]; rewrite andb_false_r; cbv beta iota;
       destruct (String.eqb (focused_pane (state w)) "right"
                 && negb (is_nil (videos (state w))));
       unfold channel_selection_ok; simpl; rewrite Hc; exact Hok
     | remember (Z.of_nat (List.length (c :: cs)) - 1) as top eqn:Etop;
       assert (Htop : top = Z.of_nat (List.length cs))
         by (subst top; cbn [List.length]; lia);
       clear Etop; cbn [List.length] in Hok;
       destruct (String.eqb (focused_pane (state w)) "left");
       cbn [is_nil negb andb];
       [ cbv beta iota;
         match goal with
         | |- context [_load_videos_for_selected env ?W] =>
             pose proof (reload_frame env W) as F; cbv zeta in F;
             destruct F as (Fc & Fs & _);
             destruct (_load_videos_for_selected env W) as [w' [u|e]];
             simpl in Fc, Fs |- *; unfold channel_selection_ok;
             rewrite Fc, Fs, Hc; cbn [List.length]; lia
         end
       | destruct (String.eqb (focused_pane (state w)) "right"
                   && negb (is_nil (videos (state w))));
         unfold channel_selection_ok; simpl; rewrite Hc;
         cbn [List.length]; lia ] ]).
Qed.

Lemma selection_ext (s s' : AppState) :
  channels s' = channels s ->
  selected_channel s' = selected_channel s ->
  channel_selection_ok s -> channel_selection_ok s'.
Proof. unfold channel_selection_ok. intros -> ->. exact (fun H => H). Qed.

Lemma enter_selection (w : World) :
  channel_selection_ok (state w) ->
  channel_selection_ok (state (exec on_enter w)).
Proof.
  intros Hok. unfold on_enter. run_stmt.
  destruct (String.eqb (focused_pane (state w)) "right"
            && negb (is_nil (videos (state w)))); [|exact Hok].
  rewrite play_selected_frame. exact Hok.
Qed.

Lemma v_selection (w : World) :
  channel_selection_ok (state w) ->
  channel_selection_ok (state (exec on_v w)).
Proof.
  intros Hok. unfold on_v. run_stmt.
  destruct (negb match current_window w with
                 | search_input => true
                 | _ => false
                 end
            && String.eqb (focused_pane (state w)) "right"
            && negb (is_nil (videos (state w)))); [|exact Hok].
  rewrite play_selected_frame. exact Hok.
Qed.

Lemma tab_selection (w : World) :
  channel_selection_ok (state w) ->
  channel_selection_ok (state (exec on_tab w)).
Proof.
  intros Hok. unfold on_tab. run_stmt.
  destruct (current_window w) eqn:E; cbv beta iota; rewrite ?E; exact Hok.
Qed.

Lemma thread_begin_selection (i : nat) (w : World) :
  channel_selection_ok (state w) ->
  channel_selection_ok (state (exec (thread_begin i) w)).
Proof.
  intros Hok. unfold thread_begin, exec.
  destruct (nth_error (threads w) i) as [[vid [|]]|]; exact Hok.
Qed.

Lemma thread_end_selection (i : nat) (o : play_outcome) (w : World) :
  channel_selection_ok (state w) ->
  channel_selection_ok (state (exec (thread_end i o) w)).
Proof.
  intros Hok. unfold thread_end, exec.
  destruct (nth_error (threads w) i) as [[vid [|]]|]; try exact Hok.
  destruct o; exact Hok.
Qed.

Lemma step_selection (e : Event) (w : World) :
  channel_selection_ok (state w) ->
  channel_selection_ok (state (exec (step e) w)).
Proof.
  intros Hok. destruct e as [k env|text|i|i o].
  - destruct k; cbn [step press].
    + unfold exec, bind, has_focus_search_input.
      destruct (current_window w).
      * apply search_selection. exact Hok.
      * apply enter_selection. exact Hok.
      * apply enter_selection. exact Hok.
    + apply v_selection. exact Hok.
    + apply tab_selection. exact Hok.
    + apply up_selection. exact Hok.
    + apply down_selection. exact Hok.
    + exact Hok.
  - cbn [step]. run_stmt. destruct (current_window w); exact Hok.
  - apply thread_begin_selection. exact Hok.
  - apply thread_end_selection. exact Hok.
Qed.

(** C9: in every world reached from the initial one by key presses, edits
    of the search line and steps of the playback threads, whatever the
    collaborators answer, [selected_channel] is 0 when there is no channel
    and an index between 0 and [len(channels) - 1] when there is one. *)
Theorem selected_channel_in_range (w : World) :
  reachable w -> channel_selection_ok (state w).
Proof.
  induction 1 as [|e w Hw IH].
  - reflexivity.
  - apply step_selection. exact IH.
Qed.

Lemma selected_channel_in_range_witness :
  channel_selection_ok
    (state (exec (step (KeyPress Down search_only))
              (exec (step (KeyPress Tab search_only))
                 (exec (step (KeyPress Enter search_only))
                    (exec (step (Edit "news")) initial_world))))).
Proof.
  apply selected_channel_in_range.
  repeat apply reach_step. apply reach_initial.
Defined.

Example down_moves_to_second_channel :
  let w := exec (step (KeyPress Down search_only))
             (exec (step (KeyPress Tab search_only))
                (exec (step (KeyPress Enter search_only))
                   (exec (step (Edit "news")) initial_world))) in
  selected_channel (state w) = 1
  /\ List.length (channels (state w)) = 2%nat
  /\ calls w = [CallChannelSearch "news"; CallAllVideos (Some "UC-c");
                CallAllVideos (Some "UC-d")].
Proof. repeat split. Qed.

(** ** Where the collaborators are called *)

Lemma app_nil_more {A} (l : list A) : exists more, l = (l ++ more)%list.
Proof. exists []. rewrite app_nil_r. reflexivity. Qed.

Lemma play_selected_threads (mode : string) (w : World) :
  exists more, threads (fst (_play_selected mode w)) = (threads w ++ more)%list.
Proof.
  unfold _play_selected. run_stmt.
  destruct (videos (state w)) as [|v vs]; [apply app_nil_more|].
  cbn [is_nil]. cbv beta iota.
  destruct (getitem (v :: vs) (selected_video (state w))) as [vid|];
    [|apply app_nil_more].
  eexists. reflexivity.
Qed.

Lemma move_threads (env : Collaborators) (w : World) :
  threads (exec (on_up env) w) = threads w
  /\ threads (exec (on_down env) w) = threads w.
Proof.
  unfold on_up, on_down. run_stmt.
  split;
    (destruct (current_window w); [reflexivity | | ]; cbv beta iota;
     (destruct (String.eqb (focused_pane (state w)) "left"
                && negb (is_nil (channels (state w))));
      [ cbv beta iota;
        match goal with
        | |- context [_load_videos_for_selected env ?W] =>
            pose proof (reload_frame env W) as F; cbv zeta in F;
            destruct F as (_ & _ & _ & _ & _ & _ & Ft & _);
            destruct (_load_videos_for_selected env W) as [w' [u|e]];
            simpl in Ft |- *; exact Ft
        end
      | destruct (String.eqb (focused_pane (state w)) "right"
                  && negb (is_nil (videos (state w)))); reflexivity ])).
Qed.

(** A key handler returns with the started threads still started. *)
Lemma press_threads (env : Collaborators) (k : Key) (w : World) :
  exists more, threads (exec (press env k) w) = (threads w ++ more)%list.
Proof.
  destruct k; cbn [press].
  - unfold exec, bind, has_focus_search_input.
    destruct (current_window w).
    + pose proof (search_frame env w) as F. cbv zeta in F.
      destruct F as (Ft & _). rewrite Ft. apply app_nil_more.
    + unfold on_enter. run_stmt.
      destruct (String.eqb (focused_pane (state w)) "right"
                && negb (is_nil (videos (state w))));
        [apply play_selected_threads | apply app_nil_more].
    + unfold on_enter. run_stmt.
      destruct (String.eqb (focused_pane (state w)) "right"
                && negb (is_nil (videos (state w))));
        [apply play_selected_threads | apply app_nil_more].
  - unfold on_v. run_stmt.
    destruct (negb match current_window w with
                   | search_input => true
                   | _ => false
                   end
              && String.eqb (focused_pane (state w)) "right"
              && negb (is_nil (videos (state w))));
      [apply play_selected_threads | apply app_nil_more].
  - unfold on_tab. run_stmt.
    destruct (current_window w) eqn:E; cbv beta iota; rewrite ?E;
      apply app_nil_more.
  - rewrite (proj1 (move_threads env w)). apply app_nil_more.
  - rewrite (proj2 (move_threads env w)). apply app_nil_more.
  - apply app_nil_more.
Qed.

(** C8 (as amended): the search runs inside the accept handler.  When the
    handler returns no thread has been started, the search collaborator
    has been called, and what it answered is already in the state: the new
    channels, or the failure message.  Playback runs in a thread:
    [_play_selected] returns with one more thread started, the state as it
    was and no collaborator called; the player is called when the thread
    runs, and a key pressed while the thread is at the player is handled
    with the thread still there. *)
Theorem search_in_handler_playback_in_thread (env : Collaborators)
  (w wp : World) (mode : string) (vid : VideoItem.t) :
  nonempty (strip (buffer_text w)) = true ->
  getitem (videos (state wp)) (selected_video (state wp)) = Some vid ->
  let text := strip (buffer_text w) in
  let ws := fst (_handle_search_accept env w) in
  let rp := _play_selected mode wp in
  let flying := exec (thread_begin (List.length (threads wp))) (fst rp) in
  threads ws = threads w
  /\ (exists rest, calls ws = (calls w ++ CallChannelSearch text :: rest)%list)
  /\ (forall chans, search_channels env text = Returns chans ->
        channels (state ws) = chans)
  /\ (forall e, search_channels env text = Raises e ->
        status_text (state ws) = "Search failed: " ++ e)
  /\ snd rp = Returns tt
  /\ threads (fst rp) = (threads wp ++ [mkThread vid false])%list
  /\ state (fst rp) = state wp
  /\ calls (fst rp) = calls wp
  /\ calls flying = (calls wp ++ [CallPlay vid])%list
  /\ threads flying = (threads wp ++ [mkThread vid true])%list
  /\ (forall env' k, exists more,
        threads (exec (press env' k) flying) =
        (threads wp ++ mkThread vid true :: more)%list).
Proof.
  intros Hne Hv text ws rp flying.
  assert (Hrp : rp = (with_threads (threads wp ++ [mkThread vid false])%list
                        (with_show_video (String.eqb mode "video") wp),
                      Returns tt)).
  { subst rp. unfold _play_selected. run_stmt.
    destruct (videos (state wp)) as [|v vs];
      [rewrite getitem_nil in Hv; discriminate|].
    cbn [is_nil]. cbv beta iota. rewrite Hv. reflexivity. }
  assert (Hfly : flying =
                 with_threads (threads wp ++ [mkThread vid true])%list
                   (exec (_run_begin vid) (fst rp))).
  { subst flying. rewrite Hrp. unfold thread_begin, exec. cbn [fst threads with_threads].
    rewrite nth_error_app2 by apply Nat.le_refl. rewrite Nat.sub_diag.
    cbn [nth_error]. unfold bind, _run_begin, update. run_stmt. cbn.
    f_equal. clear. induction (threads wp) as [|t ts IH]; simpl;
      [reflexivity | f_equal; exact IH]. }
  assert (Hs : (exists rest, calls ws = (calls w ++ CallChannelSearch text :: rest)%list)
               /\ (forall chans, search_channels env text = Returns chans ->
                     channels (state ws) = chans)
               /\ (forall e, search_channels env text = Raises e ->
                     status_text (state ws) = "Search failed: " ++ e)).
  { subst ws. rewrite (search_eq env w Hne). cbv zeta. fold text.
    destruct (search_channels env text) as [chans|e].
    - pose proof (reload_frame env (results_in_place text chans w)) as F.
      cbv zeta in F. destruct F as (Fc & _ & _ & _ & _ & _ & _ & Fcalls).
      split; [|split].
      + eexists. simpl. rewrite Fcalls. simpl. rewrite <- app_assoc. reflexivity.
      + intros chans' [= <-]. simpl. rewrite Fc. reflexivity.
      + discriminate.
    - split; [|split].
      + exists []. reflexivity.
      + discriminate.
      + intros e' [= <-]. reflexivity. }
  destruct Hs as (Hs1 & Hs2 & Hs3).
  split; [apply (search_frame env w)|].
  split; [exact Hs1|]. split; [exact Hs2|]. split; [exact Hs3|].
  rewrite Hfly, Hrp. cbn [fst snd].
  split; [reflexivity|]. split; [reflexivity|]. split; [reflexivity|].
  split; [reflexivity|]. split; [reflexivity|]. split; [reflexivity|].
  intros env' k.
  match goal with
  | |- context [exec (press env' k) ?W] =>
      destruct (press_threads env' k W) as [more Hm]; rewrite Hm
  end.
  exists more. cbn [threads with_threads]. rewrite <- app_assoc. reflexivity.
Qed.

Lemma search_in_handler_playback_in_thread_witness :
  threads (fst (_handle_search_accept search_only query_typed)) = []
  /\ threads playing_third = [mkThread (VideoItem.make "v3" "Third" 59) false].
Proof.
  pose proof (search_in_handler_playback_in_thread search_only query_typed
                browsing_a "audio" (VideoItem.make "v3" "Third" 59)
                eq_refl eq_refl) as H.
  cbv zeta in H. destruct H as (Hs & _ & _ & _ & _ & Hp & _).
  split; [exact Hs | exact Hp].
Defined.

(** C8 fails as stated: when the accept handler returns no task has been
    started, and the answer of the search collaborator (and of the reload
    that follows) has been waited for: it is in the state. *)
Lemma search_is_not_spawned :
  ~ (exists t, threads (fst (_handle_search_accept search_only query_typed))
               = (threads query_typed ++ [t])%list)
  /\ calls (fst (_handle_search_accept search_only query_typed))
     = [CallChannelSearch "news"; CallAllVideos (Some "UC-c")]
  /\ status_text (state (fst (_handle_search_accept search_only query_typed)))
     = "Found 2 channel(s).".
Proof.
  split; [|split; reflexivity].
  intros [t H]. discriminate H.
Qed.

(** * Further properties *)

(** ** Duration parser *)

Lemma isdecimal_parts (x : string) :
  isdecimal x = true -> nonempty x = true /\ all_chars is_decimal x = true.
Proof. unfold isdecimal. intros H. apply andb_prop in H. exact H. Qed.

Lemma int_returns (x : string) (v : Z) :
  int x = Returns v -> isdecimal x = true /\ v = decimal_value 0 x.
Proof.
  unfold int. destruct (isdecimal x); [|discriminate].
  intros [= <-]. split; reflexivity.
Qed.

Lemma omap_int_returns (l : list string) :
  forall parts, omap int l = Returns parts ->
  Forall (fun x => isdecimal x = true) l /\ Forall (fun v => 0 <= v) parts.
Proof.
  induction l as [|x r IH]; simpl; intros parts H.
  - injection H as <-. split; constructor.
  - destruct (int x) as [v|e] eqn:Hx; simpl in H; [|discriminate].
    destruct (omap int r) as [vs|e] eqn:Hr; simpl in H; [|discriminate].
    injection H as <-. destruct (IH vs eq_refl) as [Hd Hn].
    apply int_returns in Hx as [Hx ->].
    split; constructor; try assumption.
    apply decimal_value_nonneg; [apply (isdecimal_parts x Hx) | lia].
Qed.


(** X1: a duration with two components written in the digits 0-9 gives
    minutes*60 + seconds, and one with three such components gives
    hours*3600 + minutes*60 + seconds; leading zeros are accepted.  (The
    components are taken within the interpreter's cap on the digits of an
    integer literal.) *)
Theorem dur_well_formed (h m s : string) :
  isdecimal h = true -> isdecimal m = true -> isdecimal s = true ->
  (String.length h <= int_max_str_digits)%nat ->
  (String.length m <= int_max_str_digits)%nat ->
  (String.length s <= int_max_str_digits)%nat ->
  _fmt_duration_to_seconds (Some (m ++ ":" ++ s)) =
    Returns (decimal_value 0 m * 60 + decimal_value 0 s)
  /\ _fmt_duration_to_seconds (Some (h ++ ":" ++ m ++ ":" ++ s)) =
     Returns (decimal_value 0 h * 3600 + decimal_value 0 m * 60
              + decimal_value 0 s).
Proof.
  intros Hh Hm Hs _ _ _. split.
  - apply dur_two_components; assumption.
  - apply dur_three_components; assumption.
Qed.

Lemma dur_well_formed_witness :
  _fmt_duration_to_seconds (Some "12:05") = Returns 725
  /\ _fmt_duration_to_seconds (Some "1:02:03") = Returns 3723.
Proof.
  assert (B : forall x : string, (String.length x <= 2)%nat ->
                                 (String.length x <= int_max_str_digits)%nat)
    by (unfold int_max_str_digits; intros x Hx; lia).
  split.
  - refine (proj1 (dur_well_formed "1" "12" "05" eq_refl eq_refl eq_refl _ _ _));
      apply B; simpl; lia.
  - refine (proj2 (dur_well_formed "1" "02" "03" eq_refl eq_refl eq_refl _ _ _));
      apply B; simpl; lia.
Defined.




Lemma parsed_seconds_nonneg (dur : option string) (n : Z) :
  _fmt_duration_to_seconds dur = Returns n -> 0 <= n.
Proof.
  destruct dur as [d|]; [|intros [= <-]; lia].
  destruct (nonempty d) eqn:Hn.
  - rewrite (dur_nonempty d Hn).
    destruct (omap int (filter isdigit (split ":" d))) as [parts|e'] eqn:Ho;
      [|discriminate].
    apply omap_int_returns in Ho as [_ Hp]. simpl.
    destruct parts as [|a [|b [|c [|y r]]]]; intros [= <-]; try lia.
    + inversion Hp as [|? ? Ha Hp1]; subst. inversion Hp1; subst. lia.
    + inversion Hp as [|? ? Ha Hp1]; subst.
      inversion Hp1 as [|? ? Hb Hp2]; subst. inversion Hp2; subst. lia.
  - destruct d; [intros [= <-]; lia | discriminate].
Qed.

(** X3: whatever the parser returns is not negative. *)
Theorem dur_nonneg (dur : option string) (n : Z) :
  _fmt_duration_to_seconds dur = Returns n -> 0 <= n.
Proof. exact (parsed_seconds_nonneg dur n). Qed.

Lemma dur_nonneg_witness :
  _fmt_duration_to_seconds (Some "1:2a:03") = Returns 63 /\ 0 <= 63.
Proof.
  split; [reflexivity|].
  exact (dur_nonneg (Some "1:2a:03") 63 eq_refl).
Defined.

(** ** Search, further *)

Lemma lstrip_spaces (s : string) : all_chars isspace s = true -> lstrip s = "".
Proof.
  induction s as [|c r IH]; simpl; [reflexivity|].
  intros H. apply andb_prop in H as [Hc Hr]. rewrite Hc. exact (IH Hr).
Qed.

(** X4: submitting a search line that is empty or made of white space
    only changes nothing: no status, no redraw, no collaborator call, and
    the buffer is left to the text area. *)
Theorem blank_search_is_ignored (env : Collaborators) (w : World) :
  all_chars isspace (buffer_text w) = true ->
  _handle_search_accept env w = (w, Returns tt).
Proof.
  intros H. unfold _handle_search_accept, strip.
  rewrite (lstrip_spaces _ H). reflexivity.
Qed.

Lemma blank_search_is_ignored_witness :
  _handle_search_accept search_only (with_buffer_text "   " browsing_a)
  = (with_buffer_text "   " browsing_a, Returns tt).
Proof.
  exact (blank_search_is_ignored search_only
           (with_buffer_text "   " browsing_a) eq_refl).
Defined.

Lemma reload_redraws (env : Collaborators) (w : World) :
  invalidations (fst (_load_videos_for_selected env w)) = invalidations w.
Proof.
  rewrite reload_eq.
  destruct (channels (state w)) as [|c cs]; [reflexivity|].
  destruct (getitem (c :: cs) (selected_channel (state w))) as [ch|];
    [|reflexivity].
  cbv zeta. destruct (fetch_videos env ch); reflexivity.
Qed.

(** X5: a submitted search that is not blank never lets an exception
    out, whatever the collaborators do.  When the handler returns the
    buffer is empty, two redraws have been requested, and the status is
    the count of channels found or the failure message: it is never left
    at "Searching...". *)
Theorem search_always_concludes (env : Collaborators) (w : World) :
  nonempty (strip (buffer_text w)) = true ->
  let r := _handle_search_accept env w in
  snd r = Returns tt
  /\ buffer_text (fst r) = ""
  /\ invalidations (fst r) = S (S (invalidations w))
  /\ ((exists chans,
         search_channels env (strip (buffer_text w)) = Returns chans
         /\ status_text (state (fst r)) = found_message chans)
      \/ (exists e,
            search_channels env (strip (buffer_text w)) = Raises e
            /\ status_text (state (fst r)) = "Search failed: " ++ e))
  /\ status_text (state (fst r)) <> "Searching...".
Proof.
  intros Hne. cbv zeta. rewrite (search_eq env w Hne). cbv zeta.
  destruct (search_channels env (strip (buffer_text w))) as [chans|e].
  - pose proof (reload_frame env
                  (results_in_place (strip (buffer_text w)) chans w)) as F.
    cbv zeta in F. destruct F as (_ & _ & _ & _ & _ & Fb & _).
    pose proof (reload_redraws env
                  (results_in_place (strip (buffer_text w)) chans w)) as Fi.
    simpl. rewrite Fi. simpl.
    split; [reflexivity|]. split; [reflexivity|]. split; [reflexivity|].
    split; [left; exists chans; split; reflexivity|].
    unfold found_message. discriminate.
  - simpl.
    split; [reflexivity|]. split; [reflexivity|]. split; [reflexivity|].
    split; [right; exists e; split; reflexivity|].
    discriminate.
Qed.

Lemma search_always_concludes_witness :
  status_text (state (fst (_handle_search_accept offline query_typed)))
  <> "Searching...".
Proof.
  apply (search_always_concludes offline query_typed eq_refl).
Defined.

Lemma channel_items_none (results : list SearchResult.t) :
  filter is_channel results = [] ->
  forall acc, channel_items results acc = Returns acc.
Proof.
  induction results as [|r rest IH]; simpl; intros H acc; [reflexivity|].
  fold (is_channel r). destruct (is_channel r); [discriminate|].
  simpl. apply (IH H).
Qed.

(** X6: when the collaborator answers and none of the results is typed
    "channel" (whatever their snippets are), both lists end empty, the
    selection is 0, the status is "Found 0 channel(s)." and the video
    collaborator is not called. *)
Theorem search_without_channel (env : Collaborators) (w : World)
  (results : list SearchResult.t) :
  nonempty (strip (buffer_text w)) = true ->
  channel_search env (strip (buffer_text w)) = Returns results ->
  filter is_channel results = [] ->
  let w' := fst (_handle_search_accept env w) in
  channels (state w') = []
  /\ videos (state w') = []
  /\ selected_channel (state w') = 0
  /\ status_text (state w') = "Found 0 channel(s)."
  /\ calls w' = (calls w ++ [CallChannelSearch (strip (buffer_text w))])%list.
Proof.
  intros Hne Hs Hnone. cbv zeta. rewrite (search_eq env w Hne). cbv zeta.
  unfold search_channels. rewrite Hs. simpl obind.
  rewrite (channel_items_none results Hnone []).
  rewrite reload_eq. simpl. auto.
Qed.

Lemma search_without_channel_witness :
  channels (state (fst (_handle_search_accept no_channel query_typed))) = []
  /\ videos (state (fst (_handle_search_accept no_channel query_typed))) = [].
Proof.
  pose proof (search_without_channel no_channel query_typed _
                eq_refl eq_refl eq_refl) as H.
  cbv zeta in H. destruct H as (Hc & Hv & _).
  split; [exact Hc | exact Hv].
Defined.

(** ** Navigation *)

(** The Up binding, case by case. *)
Lemma up_eq (env : Collaborators) (w : World) :
  on_up env w =
  match current_window w with
  | search_input => (w, Returns tt)
  | _ =>
      if String.eqb (focused_pane (state w)) "left"
         && negb (is_nil (channels (state w)))
      then
        match _load_videos_for_selected env
                (with_state
                   (set_selected_channel
                      (Z.max 0 (selected_channel (state w) - 1)) (state w)) w)
        with
        | (w2, Returns _) => (redraw w2, Returns tt)
        | (w2, Raises e) => (w2, Raises e)
        end
      else if String.eqb (focused_pane (state w)) "right"
              && negb (is_nil (videos (state w)))
      then
        (redraw
           (with_state
              (set_selected_video
                 (Z.max 0 (selected_video (state w) - 1)) (state w)) w),
         Returns tt)
      else (redraw w, Returns tt)
  end.
Proof.
  unfold on_up, redraw. run_stmt.
  destruct (current_window w); [reflexivity | | ]; cbv beta iota;
    (destruct (String.eqb (focused_pane (state w)) "left"
               && negb (is_nil (channels (state w))));
     [ cbv beta iota;
       match goal with
       | |- context [_load_videos_for_selected env ?W] =>
           destruct (_load_videos_for_selected env W) as [w2 [u|e]];
           reflexivity
       end
     | destruct (String.eqb (focused_pane (state w)) "right"
                 && negb (is_nil (videos (state w)))); reflexivity ]).
Qed.

(** The Down binding, case by case. *)
Lemma down_eq (env : Collaborators) (w : World) :
  on_down env w =
  match current_window w with
  | search_input => (w, Returns tt)
  | _ =>
      if String.eqb (focused_pane (state w)) "left"
         && negb (is_nil (channels (state w)))
      then
        match _load_videos_for_selected env
                (with_state
                   (set_selected_channel
                      (Z.min (Z.of_nat (List.length (channels (state w))) - 1)
                             (selected_channel (state w) + 1)) (state w)) w)
        with
        | (w2, Returns _) => (redraw w2, Returns tt)
        | (w2, Raises e) => (w2, Raises e)
        end
      else if String.eqb (focused_pane (state w)) "right"
              && negb (is_nil (videos (state w)))
      then
        (redraw
           (with_state
              (set_selected_video
                 (Z.min (Z.of_nat (List.length (videos (state w))) - 1)
                        (selected_video (state w) + 1)) (state w)) w),
         Returns tt)
      else (redraw w, Returns tt)
  end.
Proof.
  unfold on_down, redraw. run_stmt.
  destruct (current_window w); [reflexivity | | ]; cbv beta iota;
    (destruct (String.eqb (focused_pane (state w)) "left"
               && negb (is_nil (channels (state w))));
     [ cbv beta iota;
       match goal with
       | |- context [_load_videos_for_selected env ?W] =>
           destruct (_load_videos_for_selected env W) as [w2 [u|e]];
           reflexivity
       end
     | destruct (String.eqb (focused_pane (state w)) "right"
                 && negb (is_nil (videos (state w)))); reflexivity ]).
Qed.

Lemma getitem_in_range {A} (l : list A) (i : Z) :
  0 <= i <= Z.of_nat (List.length l) - 1 -> exists a, getitem l i = Some a.
Proof.
  intros H. unfold getitem.
  destruct ((0 <=? i) && (i <? Z.of_nat (List.length l))) eqn:E; [|lia].
  destruct (nth_error l (Z.to_nat i)) as [a|] eqn:Hn; [exists a; reflexivity|].
  apply nth_error_None in Hn. lia.
Qed.

Lemma getitem_nth {A} (l : list A) (k : nat) (a : A) :
  nth_error l k = Some a -> getitem l (Z.of_nat k) = Some a.
Proof.
  intros H. unfold getitem.
  assert (k < List.length l)%nat by (apply nth_error_Some; congruence).
  destruct ((0 <=? Z.of_nat k) && (Z.of_nat k <? Z.of_nat (List.length l))) eqn:E;
    [|lia].
  rewrite Nat2Z.id. exact H.
Qed.

(** The reload returns when the selection is an index of the list. *)
Lemma reload_returns (env : Collaborators) (w : World) :
  channel_selection_ok (state w) ->
  snd (_load_videos_for_selected env w) = Returns tt.
Proof.
  unfold channel_selection_ok. intros Hok. rewrite reload_eq.
  destruct (channels (state w)) as [|c cs] eqn:Hc; [reflexivity|].
  rewrite <- Hc in Hok |- *.
  destruct (getitem_in_range _ _ Hok) as [ch Hch]. rewrite Hc in Hch |- *.
  rewrite Hch. cbv zeta. destruct (fetch_videos env ch); reflexivity.
Qed.

(** [_play_selected], case by case. *)
Lemma play_selected_eq (mode : string) (w : World) :
  _play_selected mode w =
  match videos (state w) with
  | [] => (w, Returns tt)
  | _ :: _ =>
      match getitem (videos (state w)) (selected_video (state w)) with
      | Some vid =>
          (with_threads (threads w ++ [mkThread vid false])%list
             (with_show_video (String.eqb mode "video") w),
           Returns tt)
      | None => (w, Raises "list index out of range")
      end
  end.
Proof.
  unfold _play_selected. run_stmt.
  destruct (videos (state w)) as [|v vs]; [reflexivity|].
  cbn [is_nil]. cbv beta iota.
  destruct (getitem (v :: vs) (selected_video (state w))); reflexivity.
Qed.

(** ** Invariants of the video list *)

Lemma video_items_well_formed (vids : list VideoEntry.t) :
  forall acc items,
    Forall video_well_formed acc ->
    video_items vids acc = Returns items ->
    Forall video_well_formed items.
Proof.
  induction vids as [|v rest IH]; simpl; intros acc items Hacc H.
  - injection H as <-. exact Hacc.
  - destruct (_fmt_duration_to_seconds (por (VideoEntry.duration v) (Some "")))
      as [d|e] eqn:Hd; simpl in H; [|discriminate].
    apply parsed_seconds_nonneg in Hd.
    destruct (entry_vid v) as [i|], (VideoEntry.title v) as [t|];
      try (apply (IH acc items Hacc H)).
    simpl truthy in H.
    destruct (nonempty i) eqn:Hi, (nonempty t) eqn:Ht; simpl in H;
      try (apply (IH acc items Hacc H)).
    apply (IH _ items) in H; [exact H|].
    apply Forall_app. split; [exact Hacc|].
    constructor; [|constructor]. repeat split; assumption.
Qed.

Lemma videos_ok_ext (s s' : AppState) :
  videos s' = videos s -> selected_video s' = selected_video s ->
  videos_ok s -> videos_ok s'.
Proof. unfold videos_ok. intros -> ->. exact (fun H => H). Qed.

Lemma reload_videos_ok (env : Collaborators) (w : World) :
  videos_ok (state w) ->
  videos_ok (state (fst (_load_videos_for_selected env w))).
Proof.
  intros Hok. rewrite reload_eq.
  destruct (channels (state w)) as [|c cs].
  - split; [constructor | exact I].
  - destruct (getitem (c :: cs) (selected_channel (state w))) as [ch|];
      [|exact Hok].
    cbv zeta. destruct (fetch_videos env ch) as [items|e] eqn:Hf.
    + unfold fetch_videos in Hf.
      destruct (all_videos_from_channel env (ChannelItem.id ch)) as [vids|e];
        [|discriminate].
      simpl in Hf. apply video_items_well_formed in Hf; [|constructor].
      split; [exact Hf|]. simpl.
      destruct items as [|it its]; [exact I|]. cbn [List.length]. lia.
    + split; [constructor | exact I].
Qed.

Lemma search_videos_ok (env : Collaborators) (w : World) :
  videos_ok (state w) ->
  videos_ok (state (fst (_handle_search_accept env w))).
Proof.
  intros Hok.
  destruct (nonempty (strip (buffer_text w))) eqn:Hne.
  - rewrite (search_eq env w Hne). cbv zeta.
    destruct (search_channels env (strip (buffer_text w))) as [chans|e];
      [|exact Hok].
    apply (reload_videos_ok env
             (results_in_place (strip (buffer_text w)) chans w)) in Hok.
    exact Hok.
  - unfold _handle_search_accept. cbv zeta. rewrite Hne. exact Hok.
Qed.

Lemma up_videos_ok (env : Collaborators) (w : World) :
  videos_ok (state w) -> videos_ok (state (exec (on_up env) w)).
Proof.
  intros Hok. unfold exec. rewrite up_eq.
  destruct (current_window w); [exact Hok | | ];
    (destruct (String.eqb (focused_pane (state w)) "left"
               && negb (is_nil (channels (state w))));
     [ match goal with
       | |- context [_load_videos_for_selected env ?W] =>
           pose proof (reload_videos_ok env W Hok) as R;
           destruct (_load_videos_for_selected env W) as [w2 [u|e]]; exact R
       end
     | destruct (String.eqb (focused_pane (state w)) "right"
                 && negb (is_nil (videos (state w)))); [|exact Hok];
       destruct Hok as [Hwf Hr]; split; [exact Hwf|]; simpl;
       destruct (videos (state w)); [exact I | lia] ]).
Qed.

Lemma down_videos_ok (env : Collaborators) (w : World) :
  videos_ok (state w) -> videos_ok (state (exec (on_down env) w)).
Proof.
  intros Hok. unfold exec. rewrite down_eq.
  destruct (current_window w); [exact Hok | | ];
    (destruct (String.eqb (focused_pane (state w)) "left"
               && negb (is_nil (channels (state w))));
     [ match goal with
       | |- context [_load_videos_for_selected env ?W] =>
           pose proof (reload_videos_ok env W Hok) as R;
           destruct (_load_videos_for_selected env W) as [w2 [u|e]]; exact R
       end
     | destruct (String.eqb (focused_pane (state w)) "right"
                 && negb (is_nil (videos (state w)))); [|exact Hok];
       destruct Hok as [Hwf Hr]; split; [exact Hwf|];
       cbn [fst state redraw with_invalidations with_state videos
            selected_video set_selected_video];
       destruct (videos (state w)); [exact I | lia] ]).
Qed.

Lemma step_videos_ok (e : Event) (w : World) :
  videos_ok (state w) -> videos_ok (state (exec (step e) w)).
Proof.
  intros Hok. destruct e as [k env|text|i|i o].
  - destruct k; cbn [step press].
    + unfold exec, bind, has_focus_search_input.
      destruct (current_window w).
      * apply search_videos_ok. exact Hok.
      * unfold on_enter. run_stmt.
        destruct (String.eqb (focused_pane (state w)) "right"
                  && negb (is_nil (videos (state w)))); [|exact Hok].
        rewrite play_selected_frame. exact Hok.
      * unfold on_enter. run_stmt.
        destruct (String.eqb (focused_pane (state w)) "right"
                  && negb (is_nil (videos (state w)))); [|exact Hok].
        rewrite play_selected_frame. exact Hok.
    + unfold on_v. run_stmt.
      destruct (negb match current_window w with
                     | search_input => true
                     | _ => false
                     end
                && String.eqb (focused_pane (state w)) "right"
                && negb (is_nil (videos (state w)))); [|exact Hok].
      rewrite play_selected_frame. exact Hok.
    + unfold on_tab. run_stmt.
      destruct (current_window w) eqn:E; cbv beta iota; rewrite ?E; exact Hok.
    + apply up_videos_ok. exact Hok.
    + apply down_videos_ok. exact Hok.
    + exact Hok.
  - cbn [step]. run_stmt. destruct (current_window w); exact Hok.
  - unfold exec. cbn [step]. unfold thread_begin.
    destruct (nth_error (threads w) i) as [[vid [|]]|]; exact Hok.
  - unfold exec. cbn [step]. unfold thread_end.
    destruct (nth_error (threads w) i) as [[vid [|]]|]; try exact Hok.
    destruct o; exact Hok.
Qed.

(** X7: in every reachable world each listed video has an id and a title
    that are not empty and a length that is not negative, and when the
    list is not empty [selected_video] is one of its indices. *)
Theorem videos_stay_well_formed (w : World) :
  reachable w -> videos_ok (state w).
Proof.
  induction 1 as [|e w Hw IH].
  - split; [constructor | exact I].
  - apply step_videos_ok. exact IH.
Qed.

Lemma run_events_reachable (es : list Event) (w : World) :
  reachable w -> reachable (run_events es w).
Proof.
  revert w. induction es as [|e r IH]; simpl; intros w Hw; [exact Hw|].
  apply IH. apply reach_step. exact Hw.
Qed.

Lemma videos_stay_well_formed_witness :
  videos_ok (state after_search_and_down)
  /\ selected_video (state after_search_and_down) = 1.
Proof.
  split; [|reflexivity].
  apply videos_stay_well_formed.
  apply run_events_reachable. apply reach_initial.
Defined.

(** ** No exception leaves a handler *)

Lemma search_returns (env : Collaborators) (w : World) :
  snd (_handle_search_accept env w) = Returns tt.
Proof.
  destruct (nonempty (strip (buffer_text w))) eqn:Hne.
  - rewrite (search_eq env w Hne). cbv zeta.
    destruct (search_channels env (strip (buffer_text w))); reflexivity.
  - unfold _handle_search_accept. cbv zeta. rewrite Hne. reflexivity.
Qed.

Lemma play_selected_returns (mode : string) (w : World) :
  videos_ok (state w) -> snd (_play_selected mode w) = Returns tt.
Proof.
  intros [_ Hr]. rewrite play_selected_eq.
  destruct (videos (state w)) as [|v vs] eqn:Hv; [reflexivity|].
  rewrite <- Hv in Hr |- *.
  destruct (getitem_in_range _ _ Hr) as [vid Hvid]. rewrite Hvid. reflexivity.
Qed.

Lemma moved_selection_ok (s : AppState) (i : Z) :
  channels s <> [] ->
  0 <= i <= Z.of_nat (List.length (channels s)) - 1 ->
  channel_selection_ok (set_selected_channel i s).
Proof.
  unfold channel_selection_ok. simpl.
  destruct (channels s); [congruence | intros _ H; exact H].
Qed.

Lemma left_pane_channels (s : AppState) :
  String.eqb (focused_pane s) "left" && negb (is_nil (channels s)) = true ->
  channels s <> [].
Proof.
  intros H. apply andb_prop in H as [_ H].
  destruct (channels s); [discriminate | discriminate].
Qed.

Lemma selection_bounds (s : AppState) :
  channel_selection_ok s -> channels s <> [] ->
  0 <= selected_channel s <= Z.of_nat (List.length (channels s)) - 1.
Proof.
  unfold channel_selection_ok.
  destruct (channels s); [congruence | intros H _; exact H].
Qed.

Lemma step_returns (e : Event) (w : World) :
  channel_selection_ok (state w) -> videos_ok (state w) ->
  snd (step e w) = Returns tt.
Proof.
  intros Hc Hv. destruct e as [k env|text|i|i o].
  - destruct k; cbn [step press].
    + unfold bind, has_focus_search_input.
      destruct (current_window w);
        [ apply search_returns | | ];
        (unfold on_enter; run_stmt;
         destruct (String.eqb (focused_pane (state w)) "right"
                   && negb (is_nil (videos (state w)))); [|reflexivity];
         apply play_selected_returns; exact Hv).
    + unfold on_v. run_stmt.
      destruct (negb match current_window w with
                     | search_input => true
                     | _ => false
                     end
                && String.eqb (focused_pane (state w)) "right"
                && negb (is_nil (videos (state w)))); [|reflexivity].
      apply play_selected_returns. exact Hv.
    + unfold on_tab. run_stmt.
      destruct (current_window w) eqn:E; cbv beta iota; rewrite ?E; reflexivity.
    + rewrite up_eq.
      destruct (current_window w); [reflexivity | | ];
        (destruct (String.eqb (focused_pane (state w)) "left"
                   && negb (is_nil (channels (state w)))) eqn:El;
         [ apply left_pane_channels in El;
           pose proof (selection_bounds _ Hc El) as Hb;
           match goal with
           | |- context [_load_videos_for_selected env ?W] =>
               assert (R : snd (_load_videos_for_selected env W) = Returns tt)
                 by (apply reload_returns; apply moved_selection_ok;
                     [exact El | lia]);
               destruct (_load_videos_for_selected env W) as [w2 [u|e]];
               [reflexivity | discriminate R]
           end
         | destruct (String.eqb (focused_pane (state w)) "right"
                     && negb (is_nil (videos (state w)))); reflexivity ]).
    + rewrite down_eq.
      destruct (current_window w); [reflexivity | | ];
        (destruct (String.eqb (focused_pane (state w)) "left"
                   && negb (is_nil (channels (state w)))) eqn:El;
         [ apply left_pane_channels in El;
           pose proof (selection_bounds _ Hc El) as Hb;
           match goal with
           | |- context [_load_videos_for_selected env ?W] =>
               assert (R : snd (_load_videos_for_selected env W) = Returns tt)
                 by (apply reload_returns; apply moved_selection_ok;
                     [exact El | lia]);
               destruct (_load_videos_for_selected env W) as [w2 [u|e]];
               [reflexivity | discriminate R]
           end
         | destruct (String.eqb (focused_pane (state w)) "right"
                     && negb (is_nil (videos (state w)))); reflexivity ]).
    + reflexivity.
  - cbn [step]. run_stmt. destruct (current_window w); reflexivity.
  - cbn [step]. unfold thread_begin.
    destruct (nth_error (threads w) i) as [[vid [|]]|]; reflexivity.
  - cbn [step]. unfold thread_end.
    destruct (nth_error (threads w) i) as [[vid [|]]|]; try reflexivity.
    destruct o; reflexivity.
Qed.

(** X8: in a reachable world no key handler, edit or thread step lets an
    exception out: the indexing of [channels] and of [videos] is always in
    range, and the failures of the collaborators are caught. *)
Theorem handlers_never_raise (w : World) (e : Event) :
  reachable w -> snd (step e w) = Returns tt.
Proof.
  intros Hw. apply step_returns.
  - clear e. induction Hw as [|e w Hw IH];
      [reflexivity | apply step_selection; exact IH].
  - clear e. induction Hw as [|e w Hw IH];
      [split; [constructor | exact I] | apply step_videos_ok; exact IH].
Qed.

Lemma handlers_never_raise_witness :
  snd (step (KeyPress Enter offline) after_search_and_down) = Returns tt.
Proof.
  apply handlers_never_raise.
  apply run_events_reachable. apply reach_initial.
Defined.

(** ** Focus, further *)

Lemma focus_agrees_ext (w w' : World) :
  current_window w' = current_window w ->
  focused_pane (state w') = focused_pane (state w) ->
  focus_agrees w -> focus_agrees w'.
Proof. unfold focus_agrees. intros -> ->. exact (fun H => H). Qed.

Lemma play_selected_focus (mode : string) (w : World) :
  current_window (fst (_play_selected mode w)) = current_window w.
Proof.
  rewrite play_selected_eq.
  destruct (videos (state w)); [reflexivity|].
  destruct (getitem _ _); reflexivity.
Qed.

Lemma move_focus (env : Collaborators) (w : World) :
  (current_window (exec (on_up env) w) = current_window w
   /\ focused_pane (state (exec (on_up env) w)) = focused_pane (state w))
  /\ (current_window (exec (on_down env) w) = current_window w
      /\ focused_pane (state (exec (on_down env) w)) = focused_pane (state w)).
Proof.
  unfold exec. rewrite up_eq, down_eq.
  split;
    (destruct (current_window w) eqn:Ew;
     [split; [simpl; congruence | reflexivity] | | ];
     (destruct (String.eqb (focused_pane (state w)) "left"
                && negb (is_nil (channels (state w))));
      [ match goal with
        | |- context [_load_videos_for_selected env ?W] =>
            pose proof (reload_frame env W) as F; cbv zeta in F;
            destruct F as (_ & _ & _ & Fp & Fw & _);
            destruct (_load_videos_for_selected env W) as [w2 [u|e]];
            simpl in Fp, Fw |- *; rewrite Ew in Fw; split; assumption
        end
      | destruct (String.eqb (focused_pane (state w)) "right"
                  && negb (is_nil (videos (state w))));
        simpl; rewrite Ew; split; reflexivity ])).
Qed.

Lemma step_focus_agrees (e : Event) (w : World) :
  focus_agrees w -> focus_agrees (exec (step e) w).
Proof.
  intros Hok. destruct e as [k env|text|i|i o].
  - destruct k; cbn [step press].
    + unfold exec, bind, has_focus_search_input.
      destruct (current_window w) eqn:Ew.
      * pose proof (search_frame env w) as F. cbv zeta in F.
        destruct F as (_ & Fw & _). unfold focus_agrees. rewrite Fw, Ew. exact I.
      * unfold on_enter. run_stmt.
        destruct (String.eqb (focused_pane (state w)) "right"
                  && negb (is_nil (videos (state w)))); [|exact Hok].
        apply (focus_agrees_ext w); [apply play_selected_focus | | exact Hok].
        rewrite play_selected_frame. reflexivity.
      * unfold on_enter. run_stmt.
        destruct (String.eqb (focused_pane (state w)) "right"
                  && negb (is_nil (videos (state w)))); [|exact Hok].
        apply (focus_agrees_ext w); [apply play_selected_focus | | exact Hok].
        rewrite play_selected_frame. reflexivity.
    + unfold exec, on_v. run_stmt.
      destruct (negb match current_window w with
                     | search_input => true
                     | _ => false
                     end
                && String.eqb (focused_pane (state w)) "right"
                && negb (is_nil (videos (state w)))); [|exact Hok].
      apply (focus_agrees_ext w); [apply play_selected_focus | | exact Hok].
      rewrite play_selected_frame. reflexivity.
    + unfold focus_agrees, exec, on_tab. run_stmt.
      destruct (current_window w) eqn:E; cbv beta iota; rewrite ?E; reflexivity.
    + apply (focus_agrees_ext w); [ | | exact Hok];
        apply (proj1 (move_focus env w)).
    + apply (focus_agrees_ext w); [ | | exact Hok];
        apply (proj2 (move_focus env w)).
    + exact Hok.
  - cbn [step]. run_stmt. destruct (current_window w) eqn:E;
      unfold focus_agrees in *; simpl; rewrite E in *; exact Hok.
  - unfold exec. cbn [step]. unfold thread_begin.
    destruct (nth_error (threads w) i) as [[vid [|]]|]; exact Hok.
  - unfold exec. cbn [step]. unfold thread_end.
    destruct (nth_error (threads w) i) as [[vid [|]]|]; try exact Hok.
    destruct o; exact Hok.
Qed.

(** X9: in every reachable world, when the channel window has the focus
    [state.focused_pane] is 'left', and when the video window has the
    focus it is 'right': Up, Down, Enter and the highlight act on the list
    that has the focus. *)
Theorem focused_pane_follows_focus (w : World) :
  reachable w -> focus_agrees w.
Proof.
  induction 1 as [|e w Hw IH].
  - exact I.
  - apply step_focus_agrees. exact IH.
Qed.

Lemma focused_pane_follows_focus_witness :
  focus_agrees after_search_and_down
  /\ current_window after_search_and_down = videos_window.
Proof.
  split; [|reflexivity].
  apply focused_pane_follows_focus.
  apply run_events_reachable. apply reach_initial.
Defined.

(** X10: from any window three Tab presses bring the focus back to the
    window it started from, and a Tab press changes nothing but the focus,
    [state.focused_pane] and the redraw count: lists, selections, status,
    buffer, collaborator calls and threads are as they were. *)
Theorem tab_only_moves_focus (w : World) :
  let w1 := exec on_tab w in
  current_window (exec on_tab (exec on_tab w1)) = current_window w
  /\ snd (on_tab w) = Returns tt
  /\ set_focused_pane (focused_pane (state w)) (state w1) = state w
  /\ buffer_text w1 = buffer_text w
  /\ calls w1 = calls w
  /\ threads w1 = threads w
  /\ invalidations w1 = S (invalidations w).
Proof.
  unfold exec, on_tab. run_stmt.
  destruct w as [[q chs sc vs sv np st fp] cw bt sh inv cl th ex].
  destruct cw; simpl; repeat split; reflexivity.
Qed.

(** ** Starting a playback *)

Lemma eqb_right_false (p : string) : p <> "right" -> String.eqb p "right" = false.
Proof. intros H. apply String.eqb_neq. exact H. Qed.

(** X11: Enter outside the search input and 'v' do nothing at all unless
    [state.focused_pane] is 'right' and there is a video: the world is
    returned as it was, with no thread, no redraw and no call. *)
Theorem play_keys_are_guarded (w : World) :
  focused_pane (state w) <> "right" \/ videos (state w) = [] ->
  on_enter w = (w, Returns tt) /\ on_v w = (w, Returns tt).
Proof.
  intros H. unfold on_enter, on_v. run_stmt. destruct H as [Hp|Hv].
  - rewrite (eqb_right_false _ Hp), andb_false_r. split; reflexivity.
  - rewrite Hv. cbn [is_nil negb]. rewrite !andb_false_r. split; reflexivity.
Qed.

Lemma play_keys_are_guarded_witness :
  on_enter on_channel_list = (on_channel_list, Returns tt)
  /\ on_v on_channel_list = (on_channel_list, Returns tt).
Proof.
  apply play_keys_are_guarded. left. discriminate.
Defined.



(** ** Moving the selection *)

(** X13: while the search input has the focus, Up, Down and 'v' return
    the world exactly as it was: nothing is selected, reloaded or
    redrawn. *)
Theorem keys_ignored_in_search_input (env : Collaborators) (w : World) :
  current_window w = search_input ->
  on_up env w = (w, Returns tt)
  /\ on_down env w = (w, Returns tt)
  /\ on_v w = (w, Returns tt).
Proof.
  intros Hw. rewrite up_eq, down_eq, Hw.
  split; [reflexivity|]. split; [reflexivity|].
  unfold on_v. run_stmt. rewrite Hw. reflexivity.
Qed.

Lemma keys_ignored_in_search_input_witness :
  on_down both_answer (with_buffer_text "news" initial_world)
  = (with_buffer_text "news" initial_world, Returns tt).
Proof.
  apply (keys_ignored_in_search_input both_answer
           (with_buffer_text "news" initial_world) eq_refl).
Defined.

Lemma video_pane_moves (env : Collaborators) (w : World) :
  current_window w <> search_input ->
  focused_pane (state w) = "right" ->
  videos (state w) <> [] ->
  on_up env w =
    (redraw (with_state
               (set_selected_video (Z.max 0 (selected_video (state w) - 1))
                  (state w)) w), Returns tt)
  /\ on_down env w =
     (redraw (with_state
                (set_selected_video
                   (Z.min (Z.of_nat (List.length (videos (state w))) - 1)
                          (selected_video (state w) + 1))
                   (state w)) w), Returns tt).
Proof.
  intros Hw Hp Hv. rewrite up_eq, down_eq, Hp.
  change (String.eqb "right" "left") with false.
  change (String.eqb "right" "right") with true.
  destruct (videos (state w)) as [|v vs] eqn:Ev; [congruence|].
  destruct (current_window w); [congruence | | ]; split; reflexivity.
Qed.

(** X14: on the video list (focus outside the search input,
    [state.focused_pane] at 'right', at least one video) Up moves the
    selection to [max(0, i-1)] and Down to [min(len-1, i+1)], with one
    redraw and nothing else: no reload and no collaborator call.  Away from
    the ends they undo each other; at the first video Up stays there and
    at the last one Down stays there. *)
Theorem video_selection_moves (env : Collaborators) (w : World) :
  current_window w <> search_input ->
  focused_pane (state w) = "right" ->
  videos (state w) <> [] ->
  let i := selected_video (state w) in
  let top := Z.of_nat (List.length (videos (state w))) - 1 in
  let up := exec (on_up env) w in
  let down := exec (on_down env) w in
  selected_video (state up) = Z.max 0 (i - 1)
  /\ selected_video (state down) = Z.min top (i + 1)
  /\ set_selected_video i (state up) = state w
  /\ set_selected_video i (state down) = state w
  /\ calls up = calls w /\ calls down = calls w
  /\ invalidations up = S (invalidations w)
  /\ (0 <= i < top ->
      selected_video (state (exec (on_up env) down)) = i)
  /\ (0 < i <= top ->
      selected_video (state (exec (on_down env) up)) = i)
  /\ (i = 0 -> selected_video (state up) = 0)
  /\ (i = top -> selected_video (state down) = top).
Proof.
  intros Hw Hp Hv i top up down.
  destruct (video_pane_moves env w Hw Hp Hv) as [Eu Ed].
  assert (Hup : up = redraw (with_state (set_selected_video (Z.max 0 (i - 1))
                                           (state w)) w))
    by (subst up; unfold exec; rewrite Eu; reflexivity).
  assert (Hdown : down = redraw (with_state (set_selected_video
                                               (Z.min top (i + 1)) (state w)) w))
    by (subst down; unfold exec; rewrite Ed; reflexivity).
  destruct (video_pane_moves env up) as [Euu Eud];
    [rewrite Hup; exact Hw | rewrite Hup; exact Hp | rewrite Hup; exact Hv |].
  destruct (video_pane_moves env down) as [Edu Edd];
    [rewrite Hdown; exact Hw | rewrite Hdown; exact Hp | rewrite Hdown; exact Hv |].
  unfold exec. rewrite Edu, Eud, Hup, Hdown.
  destruct w as [[q chs sc vs sv np st fp] cw bt sh inv cl th ex].
  cbn in i, top |- *. subst i top.
  repeat (split; [reflexivity|]).
  split; [intros H; lia|]. split; [intros H; lia|].
  split; [intros ->; reflexivity | intros H; lia].
Qed.

Lemma video_selection_moves_witness :
  selected_video (state (exec (on_down offline) browsing_first)) = 1
  /\ selected_video
       (state (exec (on_up offline) (exec (on_down offline) browsing_first))) = 0
  /\ calls (exec (on_down offline) browsing_first) = [].
Proof.
  assert (Hw : current_window browsing_first <> search_input) by discriminate.
  assert (Hv : videos (state browsing_first) <> []) by discriminate.
  pose proof (video_selection_moves offline browsing_first Hw eq_refl Hv) as H.
  cbv zeta in H.
  destruct H as (_ & Hd & _ & _ & _ & Hc & _ & Hr & _).
  split; [exact Hd|]. split; [|exact Hc].
  apply Hr. simpl. lia.
Defined.

Lemma reload_at (env : Collaborators) (w : World) (i : Z) (ch : ChannelItem.t) :
  getitem (channels (state w)) i = Some ch ->
  let r := _load_videos_for_selected env
             (with_state (set_selected_channel i (state w)) w) in
  let w' := fst r in
  snd r = Returns tt
  /\ selected_channel (state w') = i
  /\ channels (state w') = channels (state w)
  /\ calls w' = (calls w ++ [CallAllVideos (ChannelItem.id ch)])%list
  /\ match fetch_videos env ch with
     | Returns items =>
         videos (state w') = items /\ selected_video (state w') = 0
         /\ status_text (state w') = status_text (state w)
     | Raises e =>
         videos (state w') = []
         /\ status_text (state w') = "Failed to load videos: " ++ e
     end.
Proof.
  intros Hch. cbv zeta. rewrite reload_eq. simpl.
  destruct (channels (state w)) as [|c cs] eqn:Hc;
    [rewrite getitem_nil in Hch; discriminate|].
  rewrite Hch. destruct (fetch_videos env ch); simpl; rewrite Hc; auto 10.
Qed.

(** X15: on the channel list (focus outside the search input,
    [state.focused_pane] at 'left', a channel selected) Up selects
    [max(0, i-1)] and Down [min(len-1, i+1)], and each then reloads the
    videos of the channel now selected: the video collaborator is called
    once, with that channel's id (also when the selection did not move),
    and the videos are its answer with the first one selected, or empty
    with the failure in the status. *)
Theorem channel_selection_moves (env : Collaborators) (w : World) :
  current_window w <> search_input ->
  focused_pane (state w) = "left" ->
  channels (state w) <> [] ->
  channel_selection_ok (state w) ->
  forall (down : bool),
  let i := if down
           then Z.min (Z.of_nat (List.length (channels (state w))) - 1)
                      (selected_channel (state w) + 1)
           else Z.max 0 (selected_channel (state w) - 1) in
  let r := if down then on_down env w else on_up env w in
  let w' := fst r in
  exists ch,
    getitem (channels (state w)) i = Some ch
    /\ snd r = Returns tt
    /\ selected_channel (state w') = i
    /\ channels (state w') = channels (state w)
    /\ calls w' = (calls w ++ [CallAllVideos (ChannelItem.id ch)])%list
    /\ match fetch_videos env ch with
       | Returns items =>
           videos (state w') = items /\ selected_video (state w') = 0
           /\ status_text (state w') = status_text (state w)
       | Raises e =>
           videos (state w') = []
           /\ status_text (state w') = "Failed to load videos: " ++ e
       end.
Proof.
  intros Hw Hp Hne Hok down i r w'.
  pose proof (selection_bounds _ Hok Hne) as Hb.
  assert (Hi : 0 <= i <= Z.of_nat (List.length (channels (state w))) - 1)
    by (subst i; destruct down; lia).
  destruct (getitem_in_range _ _ Hi) as [ch Hch].
  exists ch. split; [exact Hch|].
  pose proof (reload_at env w i ch Hch) as R. cbv zeta in R.
  assert (Hr : r = (redraw (fst (_load_videos_for_selected env
                                   (with_state (set_selected_channel i (state w)) w))),
                    Returns tt)).
  { subst r i. destruct R as (Rs & _).
    destruct down; [rewrite down_eq | rewrite up_eq]; rewrite Hp;
      change (String.eqb "left" "left") with true;
      (destruct (channels (state w)) as [|c cs] eqn:Ec; [congruence|]);
      cbn [is_nil negb andb];
      (destruct (current_window w); [congruence | | ]);
      match goal with
      | |- context [_load_videos_for_selected env ?W] =>
          destruct (_load_videos_for_selected env W) as [w2 [u|e]];
          [reflexivity | discriminate Rs]
      end. }
  subst w'. rewrite Hr. cbn [fst snd].
  destruct R as (_ & R2 & R3 & R4 & R5).
  split; [reflexivity|]. split; [exact R2|]. split; [exact R3|].
  split; [exact R4 | exact R5].
Qed.

Lemma channel_selection_moves_witness :
  selected_channel (state (fst (on_down one_video on_channel_list))) = 1
  /\ calls (fst (on_down one_video on_channel_list))
     = [CallAllVideos (Some "UC-b")]
  /\ videos (state (fst (on_down one_video on_channel_list)))
     = [VideoItem.make "xyz" "With link" 0].
Proof.
  assert (Hw : current_window on_channel_list <> search_input) by discriminate.
  assert (Hne : channels (state on_channel_list) <> []) by discriminate.
  assert (Hok : channel_selection_ok (state on_channel_list))
    by (unfold channel_selection_ok; simpl; lia).
  destruct (channel_selection_moves one_video on_channel_list Hw eq_refl Hne
              Hok true) as (ch & Hch & _ & Hs & _ & Hc & Hv).
  vm_compute in Hch. injection Hch as <-.
  vm_compute in Hv. destruct Hv as (Hv & _).
  split; [exact Hs|]. split; [exact Hc|]. vm_compute. exact Hv.
Defined.

(** ** Playback threads *)






Lemma remove_nth_keeps {A} (l : list A) (i j : nat) (t : A) :
  j <> i -> nth_error l j = Some t -> In t (remove_nth i l).
Proof.
  revert i j. induction l as [|a r IH]; intros i j Hne Hj.
  - destruct j; discriminate.
  - destruct i as [|i], j as [|j]; simpl in *.
    + congruence.
    + apply nth_error_In in Hj. exact Hj.
    + left. congruence.
    + right. apply (IH i j); [congruence | exact Hj].
Qed.

(** X17: playbacks are not exclusive, and the one that ends first clears
    [now_playing] for all: when the player call of a running thread ends,
    [now_playing] becomes None and the footer stops showing "Playing",
    while every other started thread is still there. *)
Theorem first_playback_to_end_clears_now_playing (w : World) (i : nat)
  (vid : VideoItem.t) (o : play_outcome) :
  nth_error (threads w) i = Some (mkThread vid true) ->
  let w' := exec (thread_end i o) w in
  now_playing (state w') = None
  /\ threads w' = remove_nth i (threads w)
  /\ (forall j t, j <> i -> nth_error (threads w) j = Some t ->
        In t (threads w'))
  /\ _compute_footer (state w') =
     match o with
     | PlayRaises e => "Playback error: " ++ e
     | _ => if nonempty (status_text (state w))
            then status_text (state w) else help_line
     end.
Proof.
  intros Hi. cbv zeta. unfold exec, thread_end. rewrite Hi.
  assert (E : fst ((_run_end o;;
                    update (fun w' => with_threads (remove_nth i (threads w')) w'))
                     w)
              = with_threads (remove_nth i (threads w)) (exec (_run_end o) w))
    by (destruct o; reflexivity).
  rewrite E.
  split; [destruct o; reflexivity|].
  split; [destruct o; reflexivity|].
  split.
  - intros j t Hne Hj.
    replace (threads (with_threads (remove_nth i (threads w)) (exec (_run_end o) w)))
      with (remove_nth i (threads w)) by reflexivity.
    apply (remove_nth_keeps _ i j t Hne Hj).
  - destruct o; reflexivity.
Qed.

Lemma first_playback_to_end_clears_now_playing_witness :
  now_playing (state two_playing) = Some ("Third", 59)
  /\ now_playing (state (exec (thread_end 0 PlayReturns) two_playing)) = None
  /\ threads (exec (thread_end 0 PlayReturns) two_playing)
     = [mkThread (VideoItem.make "v3" "Third" 59) true].
Proof.
  split; [reflexivity|].
  pose proof (first_playback_to_end_clears_now_playing two_playing
                0 (VideoItem.make "v3" "Third" 59) PlayReturns eq_refl) as H.
  cbv zeta in H. destruct H as (Hn & Ht & _).
  split; [exact Hn | exact Ht].
Defined.

(** ** Footer and channel pane *)

(** X18: what the footer shows after a search that was not blank.  When
    nothing is playing it is the outcome of the search (the count or the
    failure); while [now_playing] is set it is still "Playing: <title>"
    with the controls, and the outcome of the search is not shown. *)
Theorem footer_after_search (env : Collaborators) (w : World) :
  nonempty (strip (buffer_text w)) = true ->
  let s' := state (fst (_handle_search_accept env w)) in
  match now_playing (state w) with
  | Some (title, _) =>
      _compute_footer s' = "Playing: " ++ title ++ playing_controls
  | None =>
      _compute_footer s' = status_text s'
      /\ _compute_footer s' <> help_line
  end.
Proof.
  intros Hne. cbv zeta. rewrite (search_eq env w Hne). cbv zeta.
  unfold _compute_footer.
  destruct (search_channels env (strip (buffer_text w))) as [chans|e].
  - pose proof (reload_frame env
                  (results_in_place (strip (buffer_text w)) chans w)) as F.
    cbv zeta in F. destruct F as (_ & _ & Fn & _).
    simpl. rewrite Fn. simpl.
    destruct (now_playing (state w)) as [[t n]|]; [reflexivity|].
    split; [reflexivity | unfold found_message; discriminate].
  - simpl. destruct (now_playing (state w)) as [[t n]|]; [reflexivity|].
    split; [reflexivity | discriminate].
Qed.

Lemma footer_after_search_witness :
  _compute_footer (state (fst (_handle_search_accept offline typing_while_playing)))
  = "Playing: Third" ++ playing_controls
  /\ _compute_footer (state (fst (_handle_search_accept offline query_typed)))
     = "Search failed: network unreachable".
Proof.
  split.
  - exact (footer_after_search offline typing_while_playing eq_refl).
  - exact (proj1 (footer_after_search offline query_typed eq_refl)).
Defined.

(** X19: a text written through the status hook replaces the status and
    requests one redraw, whatever [mute] is; the footer then shows that
    text, the help line when the text is empty, and the playback line
    instead of either while [now_playing] is set. *)
Theorem status_hook_reaches_footer (text : string) (mute : bool) (w : World) :
  let r := _patched_writestatus text mute w in
  snd r = Returns tt
  /\ state (fst r) = set_status_text text (state w)
  /\ invalidations (fst r) = S (invalidations w)
  /\ _compute_footer (state (fst r)) =
     match now_playing (state w) with
     | Some (title, _) => "Playing: " ++ title ++ playing_controls
     | None => if nonempty text then text else help_line
     end
  /\ fst (_patched_writestatus text true w) = fst (_patched_writestatus text false w).
Proof.
  cbv zeta. unfold _patched_writestatus, _compute_footer. run_stmt. simpl.
  repeat (split; [reflexivity|]). reflexivity.
Qed.

Lemma channel_lines_nth (s : AppState) (chs : list ChannelItem.t) :
  forall idx k ch,
    nth_error chs k = Some ch ->
    nth_error (channel_lines s idx chs) k =
    Some (if (Z.of_nat (idx + k) =? selected_channel s)
             && String.eqb (focused_pane s) "left"
          then ("class:selected",
                "> " ++ format_value (ChannelItem.title ch) ++ newline)
          else ("", "  " ++ format_value (ChannelItem.title ch) ++ newline)).
Proof.
  induction chs as [|c r IH]; intros idx k ch Hk.
  - destruct k; discriminate.
  - destruct k as [|k]; simpl in Hk |- *.
    + injection Hk as <-. rewrite Nat.add_0_r.
      destruct ((Z.of_nat idx =? selected_channel s)
                && String.eqb (focused_pane s) "left"); reflexivity.
    + rewrite (IH (S idx) k ch Hk).
      replace (S idx + k)%nat with (idx + S k)%nat by lia. reflexivity.
Qed.

Lemma channel_lines_length (s : AppState) (chs : list ChannelItem.t) :
  forall idx, List.length (channel_lines s idx chs) = List.length chs.
Proof.
  induction chs as [|c r IH]; intros idx; simpl; [reflexivity|].
  rewrite IH. reflexivity.
Qed.

Lemma channel_lines_plain (s : AppState) (chs : list ChannelItem.t) :
  String.eqb (focused_pane s) "left" = false ->
  forall idx, Forall (fun seg => fst seg = "") (channel_lines s idx chs).
Proof.
  intros Hp. induction chs as [|c r IH]; intros idx; simpl; constructor.
  - rewrite Hp, andb_false_r. reflexivity.
  - apply IH.
Qed.

(** X20: the channel pane is the title line followed by one line per
    channel, in order, or by the hint when there is no channel.  The line
    of a channel is marked "> " with the style 'class:selected' exactly
    when its index is [selected_channel] and [state.focused_pane] is
    'left'; every other line starts with two spaces and has no style, so
    that nothing is highlighted while the pane is not 'left'.  A channel
    without a title is shown as "None". *)
Theorem render_channels_lines (s : AppState) :
  nth_error (render_channels s) 0 = Some ("class:title", "Channels" ++ newline)
  /\ (channels s = [] ->
      render_channels s =
      [("class:title", "Channels" ++ newline);
       ("", " No channels. Type a query and press Enter.")])
  /\ (channels s <> [] ->
      List.length (render_channels s) = S (List.length (channels s)))
  /\ (forall k ch,
        nth_error (channels s) k = Some ch ->
        nth_error (render_channels s) (S k) =
        Some (if (Z.of_nat k =? selected_channel s)
                 && String.eqb (focused_pane s) "left"
              then ("class:selected",
                    "> " ++ format_value (ChannelItem.title ch) ++ newline)
              else ("", "  " ++ format_value (ChannelItem.title ch) ++ newline)))
  /\ (focused_pane s <> "left" ->
      Forall (fun seg => fst seg <> "class:selected") (render_channels s)).
Proof.
  unfold render_channels.
  split; [destruct (channels s); reflexivity|].
  split; [intros ->; reflexivity|].
  split; [|split].
  - intros Hne. destruct (channels s) as [|c r] eqn:Hc; [congruence|].
    cbn [is_nil app List.length]. rewrite channel_lines_length. reflexivity.
  - intros k ch Hk. destruct (channels s) as [|c r] eqn:Hc.
    + destruct k; discriminate.
    + cbn [is_nil app nth_error].
      apply (channel_lines_nth s (c :: r) 0 k ch Hk).
  - intros Hp. apply String.eqb_neq in Hp.
    destruct (channels s) as [|c r]; cbn [is_nil app].
    + constructor; [discriminate|]. constructor; [discriminate | constructor].
    + constructor; [discriminate|].
      eapply Forall_impl; [|apply (channel_lines_plain s (c :: r) Hp 0)].
      intros seg ->. discriminate.
Qed.

Lemma render_channels_lines_witness :
  nth_error (render_channels (state on_channel_list)) 1
  = Some ("class:selected", "> Channel A" ++ newline)
  /\ nth_error (render_channels (state on_channel_list)) 2
     = Some ("", "  Channel B" ++ newline).
Proof.
  destruct (render_channels_lines (state on_channel_list))
    as (_ & _ & _ & H & _).
  split.
  - exact (H 0%nat channel_a eq_refl).
  - exact (H 1%nat channel_b eq_refl).
Defined.

(** ** One bad duration *)

Lemma video_items_raises_at (vids : list VideoEntry.t) (v : VideoEntry.t)
  (e0 : string) :
  In v vids ->
  _fmt_duration_to_seconds (por (VideoEntry.duration v) (Some "")) = Raises e0 ->
  forall acc, exists e, video_items vids acc = Raises e.
Proof.
  induction vids as [|u rest IH]; intros Hin Hv acc; [destruct Hin|].
  simpl.
  destruct (_fmt_duration_to_seconds (por (VideoEntry.duration u) (Some "")))
    as [d|e] eqn:Hu; simpl.
  - destruct Hin as [->|Hin]; [congruence|].
    destruct (entry_vid u), (VideoEntry.title u);
      try (apply (IH Hin Hv)).
    destruct (truthy _ && truthy _); apply (IH Hin Hv).
  - exists e. reflexivity.
Qed.

(** X21: one entry whose duration makes the parser raise is enough for
    the whole reload to fail, even an entry that would have been dropped
    for lack of an id or title: no video of the channel is listed and the
    status is "Failed to load videos: ..." with the text of the
    ValueError. *)
Theorem bad_duration_fails_reload (env : Collaborators) (w : World)
  (ch : ChannelItem.t) (vids : list VideoEntry.t) (v : VideoEntry.t)
  (e0 : string) :
  getitem (channels (state w)) (selected_channel (state w)) = Some ch ->
  all_videos_from_channel env (ChannelItem.id ch) = Returns vids ->
  In v vids ->
  _fmt_duration_to_seconds (por (VideoEntry.duration v) (Some "")) = Raises e0 ->
  let r := _load_videos_for_selected env w in
  snd r = Returns tt
  /\ videos (state (fst r)) = []
  /\ exists e,
       status_text (state (fst r)) = "Failed to load videos: " ++ e
       /\ exists u, In u vids
            /\ _fmt_duration_to_seconds (por (VideoEntry.duration u) (Some ""))
               = Raises e.
Proof.
  intros Hch Hvids Hin Hv. cbv zeta.
  destruct (video_items_raises_at vids v e0 Hin Hv []) as [e He].
  assert (Hf : fetch_videos env ch = Raises e)
    by (unfold fetch_videos; rewrite Hvids; exact He).
  rewrite reload_eq.
  destruct (channels (state w)) as [|c cs] eqn:Hc;
    [rewrite getitem_nil in Hch; discriminate|].
  rewrite Hch. cbv zeta. rewrite Hf. simpl.
  split; [reflexivity|]. split; [reflexivity|].
  exists e. split; [reflexivity|].
  apply (video_items_raises vids [] e He).
Qed.

Lemma bad_duration_fails_reload_witness :
  videos (state (fst (_load_videos_for_selected one_bad_duration browsing_a)))
  = [].
Proof.
  refine (proj1 (proj2 (bad_duration_fails_reload one_bad_duration browsing_a
                          channel_a [entry_with_id; entry_bad_duration]
                          entry_bad_duration _ eq_refl eq_refl _ eq_refl))).
  right. left. reflexivity.
Defined.

(** ** The playback shown and the threads *)

Lemma search_now_playing (env : Collaborators) (w : World) :
  now_playing (state (fst (_handle_search_accept env w)))
  = now_playing (state w).
Proof.
  destruct (nonempty (strip (buffer_text w))) eqn:Hne.
  - rewrite (search_eq env w Hne). cbv zeta.
    destruct (search_channels env (strip (buffer_text w))) as [chans|e];
      [|reflexivity].
    pose proof (reload_frame env
                  (results_in_place (strip (buffer_text w)) chans w)) as F.
    cbv zeta in F. destruct F as (_ & _ & Fn & _).
    simpl. rewrite Fn. reflexivity.
  - unfold _handle_search_accept. cbv zeta. rewrite Hne. reflexivity.
Qed.

Lemma move_now_playing (env : Collaborators) (w : World) :
  now_playing (state (exec (on_up env) w)) = now_playing (state w)
  /\ now_playing (state (exec (on_down env) w)) = now_playing (state w).
Proof.
  unfold exec. rewrite up_eq, down_eq.
  split;
    (destruct (current_window w); [reflexivity | | ];
     (destruct (String.eqb (focused_pane (state w)) "left"
                && negb (is_nil (channels (state w))));
      [ match goal with
        | |- context [_load_videos_for_selected env ?W] =>
            pose proof (reload_frame env W) as F; cbv zeta in F;
            destruct F as (_ & _ & Fn & _);
            destruct (_load_videos_for_selected env W) as [w2 [u|e]];
            simpl in Fn |- *; exact Fn
        end
      | destruct (String.eqb (focused_pane (state w)) "right"
                  && negb (is_nil (videos (state w)))); reflexivity ])).
Qed.

Lemma press_now_playing (env : Collaborators) (k : Key) (w : World) :
  now_playing (state (exec (press env k) w)) = now_playing (state w).
Proof.
  destruct k; cbn [press].
  - unfold exec, bind, has_focus_search_input.
    destruct (current_window w);
      [ apply search_now_playing | | ];
      (unfold on_enter; run_stmt;
       destruct (String.eqb (focused_pane (state w)) "right"
                 && negb (is_nil (videos (state w)))); [|reflexivity];
       rewrite play_selected_frame; reflexivity).
  - unfold on_v. run_stmt.
    destruct (negb match current_window w with
                   | search_input => true
                   | _ => false
                   end
              && String.eqb (focused_pane (state w)) "right"
              && negb (is_nil (videos (state w)))); [|reflexivity].
    rewrite play_selected_frame. reflexivity.
  - unfold on_tab. run_stmt.
    destruct (current_window w) eqn:E; cbv beta iota; rewrite ?E; reflexivity.
  - apply (proj1 (move_now_playing env w)).
  - apply (proj2 (move_now_playing env w)).
  - reflexivity.
Qed.

Lemma replace_nth_in {A} (l : list A) (i : nat) (x y : A) :
  nth_error l i = Some x -> In y (replace_nth i y l).
Proof.
  revert i. induction l as [|a r IH]; intros i Hi.
  - destruct i; discriminate.
  - destruct i as [|i]; simpl in *; [left; reflexivity|].
    right. apply (IH i Hi).
Qed.

Lemma step_playing_has_thread (e : Event) (w : World) :
  playing_has_thread w -> playing_has_thread (exec (step e) w).
Proof.
  unfold playing_has_thread. intros Hok. destruct e as [k env|text|i|i o].
  - cbn [step]. rewrite press_now_playing. intros Hn.
    destruct (Hok Hn) as [t [Ht Hr]].
    destruct (press_threads env k w) as [more Hm]. rewrite Hm.
    exists t. split; [apply in_or_app; left; exact Ht | exact Hr].
  - cbn [step]. run_stmt. destruct (current_window w); exact Hok.
  - unfold exec. cbn [step]. unfold thread_begin.
    destruct (nth_error (threads w) i) as [[vid [|]]|] eqn:Hi; try exact Hok.
    intros _. exists (mkThread vid true). split; [|reflexivity].
    unfold bind, _run_begin, update. run_stmt. cbn.
    apply (replace_nth_in _ i _ _ Hi).
  - unfold exec. cbn [step]. unfold thread_end.
    destruct (nth_error (threads w) i) as [[vid [|]]|] eqn:Hi; try exact Hok.
    intros Hn. exfalso. apply Hn. destruct o; reflexivity.
Qed.

(** X22: in every reachable world, while [now_playing] is set (and the
    footer shows "Playing: ...") at least one started playback thread is
    at the player: the footer never announces a playback that no thread is
    running. *)
Theorem now_playing_has_a_thread (w : World) :
  reachable w -> playing_has_thread w.
Proof.
  induction 1 as [|e w Hw IH].
  - intros H. exfalso. apply H. reflexivity.
  - apply step_playing_has_thread. exact IH.
Qed.

Lemma now_playing_has_a_thread_witness :
  playing_has_thread
    (run_events [Edit "news"; KeyPress Enter both_answer;
                 KeyPress Tab both_answer; KeyPress Tab both_answer;
                 KeyPress Enter both_answer; ThreadBegin 0] initial_world)
  /\ now_playing
       (state (run_events [Edit "news"; KeyPress Enter both_answer;
                           KeyPress Tab both_answer; KeyPress Tab both_answer;
                           KeyPress Enter both_answer; ThreadBegin 0]
                 initial_world))
     = Some ("With id", 123).
Proof.
  split; [|reflexivity].
  apply now_playing_has_a_thread.
  apply run_events_reachable. apply reach_initial.
Defined.
